(** * App_tareas: the task API of [server.js]

    A shallow embedding of the Express handlers of [src/server.js] and the
    properties of the task store they implement.

    - [Js]: the JavaScript values the handlers see (parsed JSON bodies,
      parsed query strings), truthiness, [===], property keys.
    - [Server]: the module state ([tareas], [contadorId]) and one function
      per route, written in state-passing style.
    - the theorems about the routes.

    Numbers: every number the handlers compute with is an integer (ids,
    counts); they are modelled in [Z], which agrees with IEEE doubles on the
    safe integer range.  [NaN] appears where the code can produce it
    ([parseInt] of a path segment, [++] on a non-number) and is modelled
    explicitly there.  Where a number is printed (as a property key) the
    integer is first rounded to the double that holds it. *)

From stdpp Require Import base gmap list strings pretty.
From Stdlib Require Import ZArith Lia Sorted.

Set Warnings "-register-all".

(* ================================================================== *)
(** ** JavaScript values *)
(* ================================================================== *)

Module Js.

(** A JavaScript number as far as the handlers can produce one: an
    integer or [NaN]. *)
Inductive Num : Type :=
| NInt (n : Z)
| NaN.

(** A value held in memory: what [bodyParser.json()] and the query parser
    build, plus the numbers the handlers store themselves.  [undefined] is
    not among them: a property read yields [option JVal], with [None] for
    [undefined]. *)
Inductive JVal : Type :=
| JNull
| JBool (b : bool)
| JNum (n : Num)
| JStr (s : string)
| JArr (xs : list JVal)
| JObj (kvs : list (string * JVal)).

(** A plain object: own properties by name. *)
Abbreviation Obj := (gmap string JVal).

(** [ToBoolean].  Arrays and objects are always truthy. *)
Definition truthy (v : JVal) : bool :=
  match v with
  | JNull => false
  | JBool b => b
  | JNum (NInt n) => negb (n =? 0)%Z
  | JNum NaN => false
  | JStr s => negb (String.eqb s "")
  | JArr _ | JObj _ => true
  end.

(** [ToBoolean] of the result of a property read. *)
Definition truthy_u (o : option JVal) : bool :=
  match o with
  | Some v => truthy v
  | None => false
  end.

(** [a === b] where [b] was allocated by the current request (a parsed
    query value, a literal): primitives compare by value, [NaN] equals
    nothing, and an array or object is a fresh reference, equal to nothing
    stored before. *)
Definition strict_eq (a b : option JVal) : bool :=
  match a, b with
  | None, None => true
  | Some JNull, Some JNull => true
  | Some (JBool x), Some (JBool y) => Bool.eqb x y
  | Some (JNum (NInt x)), Some (JNum (NInt y)) => (x =? y)%Z
  | Some (JStr x), Some (JStr y) => String.eqb x y
  | _, _ => false
  end.

Fixpoint join_comma (l : list string) : string :=
  match l with
  | [] => ""
  | [s] => s
  | s :: rest => s +:+ "," +:+ join_comma rest
  end.

(** *** Printing a number

    [Number::toString] on an integer: the digits are those of the
    shortest decimal numeral that reads back as the same double (the
    closest one among the shortest); up to 21 digits they are printed in
    full, beyond that in exponent notation.  An integer beyond the
    largest double is [Infinity]. *)

(** The double nearest to a non-negative integer, ties to even. *)
Definition redondea (m : Z) : Z :=
  if (m <? 2 ^ 53)%Z then m
  else
    let sh := (Z.log2 m - 52)%Z in
    let q := (m / 2 ^ sh)%Z in
    let r := (m mod 2 ^ sh)%Z in
    let half := (2 ^ (sh - 1))%Z in
    let q' :=
      if (half <? r)%Z || ((r =? half)%Z && Z.odd q) then (q + 1)%Z else q in
    (q' * 2 ^ sh)%Z.

(** The number of decimal digits. *)
Definition cifras (x : Z) : nat := String.length (pretty x).

(** Among the two multiples of [10 ^ p] around [x], the closest one that
    reads back as [x], if any. *)
Definition candidato (x : Z) (p : Z) : option Z :=
  let lo := (x / 10 ^ p * 10 ^ p)%Z in
  let hi := (lo + 10 ^ p)%Z in
  let vlo := (0 <? lo)%Z && (redondea lo =? x)%Z in
  let vhi := (redondea hi =? x)%Z in
  match vlo, vhi with
  | true, true =>
      if (x - lo <? hi - x)%Z then Some lo
      else if (hi - x <? x - lo)%Z then Some hi
      else if Z.even (lo / 10 ^ p) then Some lo else Some hi
  | true, false => Some lo
  | false, true => Some hi
  | false, false => None
  end.

(** The numeral with the fewest significant digits that reads back as
    [x]: the search starts at one significant digit ([p] trailing zeros)
    and adds one digit at a time. *)
Fixpoint mas_corto (x : Z) (p : nat) : Z :=
  match candidato x (Z.of_nat p) with
  | Some v => v
  | None =>
      match p with
      | O => x
      | S p' => mas_corto x p'
      end
  end.

Fixpoint sin_ceros (fuel : nat) (v : Z) : Z :=
  match fuel with
  | O => v
  | S f =>
      if (0 <? v)%Z && (v mod 10 =? 0)%Z then sin_ceros f (v / 10)%Z else v
  end.

Definition numero_positivo (n : Z) : string :=
  let x := redondea n in
  if (2 ^ 1024 <=? x)%Z then "Infinity" else
  let v := mas_corto x (cifras x - 1) in
  let d := cifras v in
  if (d <=? 21)%nat then pretty v
  else
    match pretty (sin_ceros d v) with
    | String c "" => String c ("e+" +:+ pretty (Z.of_nat (d - 1)))
    | String c resto =>
        String c ("." +:+ resto +:+ "e+" +:+ pretty (Z.of_nat (d - 1)))
    | "" => ""
    end.

Definition numero_texto (n : Z) : string :=
  if (n <? 0)%Z then "-" +:+ numero_positivo (- n) else numero_positivo n.

(** *** Conversion to a string and to a property key *)

(** An own property named [k] of a parsed object. *)
Definition tiene_propia (k : string) (kvs : list (string * JVal)) : bool :=
  existsb (fun kv => String.eqb (fst kv) k) kvs.

(** [ToString], as used by [ToPropertyKey] in [obj[v]]; [None] when the
    conversion throws [TypeError].  A parsed object converts through
    [toString]: the inherited method gives ["[object Object]"], but an own
    property of that name shadows it, holds a value that cannot be called,
    and [valueOf] does not yield a primitive either, so the conversion
    throws.  An array converts through [join], which converts every
    element other than [null]. *)
Fixpoint to_string (v : JVal) : option string :=
  match v with
  | JNull => Some "null"
  | JBool true => Some "true"
  | JBool false => Some "false"
  | JNum (NInt n) => Some (numero_texto n)
  | JNum NaN => Some "NaN"
  | JStr s => Some s
  | JArr xs =>
      let fix elementos (l : list JVal) : option (list string) :=
        match l with
        | [] => Some []
        | x :: l' =>
            match
              match x with
              | JNull => Some ""
              | _ => to_string x
              end,
              elementos l'
            with
            | Some e, Some es => Some (e :: es)
            | _, _ => None
            end
        end in
      match elementos xs with
      | Some es => Some (join_comma es)
      | None => None
      end
  | JObj kvs =>
      if tiene_propia "toString" kvs then None else Some "[object Object]"
  end.

(** [ToPropertyKey] of the result of a property read. *)
Definition to_key (o : option JVal) : option string :=
  match o with
  | Some v => to_string v
  | None => Some "undefined"
  end.

(** What a read of [o[k]] can yield on the object literal [{}] used as a
    counter table in the statistics route: an own numeric property, a
    method inherited from [Object.prototype], the prototype itself (the
    [__proto__] accessor), or [undefined]. *)
Inductive Prop_read : Type :=
| POwn (v : Num)
| PMethod
| PProto
| PUndefined.

(** The data properties of [Object.prototype]; all hold functions and all
    are writable. *)
Definition object_prototype_methods : list string :=
  [ "constructor"; "hasOwnProperty"; "isPrototypeOf"; "propertyIsEnumerable";
    "toLocaleString"; "toString"; "valueOf";
    "__defineGetter__"; "__defineSetter__";
    "__lookupGetter__"; "__lookupSetter__" ].

Definition is_method (k : string) : bool :=
  bool_decide (k ∈ object_prototype_methods).

Definition is_proto (k : string) : bool := String.eqb k "__proto__".

(** [o[k]]: own property first, then the prototype chain. *)
Definition get_prop (o : gmap string Num) (k : string) : Prop_read :=
  match o !! k with
  | Some v => POwn v
  | None =>
      if is_proto k then PProto
      else if is_method k then PMethod
      else PUndefined
  end.

(** [o[k] = v] for a number [v]: the [__proto__] setter ignores a value
    that is neither an object nor [null]; every other key becomes (or
    stays) an own property. *)
Definition set_prop (o : gmap string Num) (k : string) (v : Num)
  : gmap string Num :=
  if is_proto k then o else <[k := v]> o.

Definition read_truthy (r : Prop_read) : bool :=
  match r with
  | POwn (NInt n) => negb (n =? 0)%Z
  | POwn NaN => false
  | PMethod | PProto => true
  | PUndefined => false
  end.

(** [ToNumber]: a function or an object converts through its string form,
    which is not numeric. *)
Definition read_number (r : Prop_read) : Num :=
  match r with
  | POwn v => v
  | PMethod | PProto | PUndefined => NaN
  end.

Definition num_succ (v : Num) : Num :=
  match v with
  | NInt n => NInt (n + 1)
  | NaN => NaN
  end.

End Js.

(* ================================================================== *)
(** ** The server: state and routes *)
(* ================================================================== *)

Module Server.
Import Js.

(** A task is a plain object.  [POST] builds it with the keys [id],
    [titulo], [descripcion], [categoria], [prioridad], [completada],
    [fecha]; [PUT] can add any other key. *)
Abbreviation Tarea := (gmap string JVal).

(** The module-level state: [tareas] and [contadorId]. *)
Record Store : Type := mkStore {
  tareas : list Tarea;
  contadorId : Z
}.

(** Modelled from the spec: the declaration [let tareas = [...]] sits
    inside a comment block of [server.js], so the source does not fix the
    initial collection; the specification has it "initialized empty (or
    with seed data)".  The initial collection is a parameter here.
    [contadorId] starts at 3, as in the source. *)
Definition inicio (semilla : list Tarea) : Store :=
  {| tareas := semilla; contadorId := 3 |}.

(** The two sample tasks of the commented-out declaration. *)
Definition tarea_ejemplo (id : Z) (titulo descripcion categoria prioridad fecha : string)
  : Tarea :=
  <["fecha" := JStr fecha]>
  (<["completada" := JBool false]>
  (<["prioridad" := JStr prioridad]>
  (<["categoria" := JStr categoria]>
  (<["descripcion" := JStr descripcion]>
  (<["titulo" := JStr titulo]>
  (<["id" := JNum (NInt id)]> ∅)))))).

Definition semilla_ejemplo (fecha : string) : list Tarea :=
  [ tarea_ejemplo 1 "Aprender Node.js" "Completar el tutorial de Node.js"
      "Educación" "alta" fecha;
    tarea_ejemplo 2 "Hacer la compra" "Comprar frutas y verduras"
      "Personal" "media" fecha ].

(** *** Responses *)

Record Stats : Type := mkStats {
  total : nat;
  completadas : nat;
  pendientes : nat;
  porCategoria : gmap string Num
}.

Inductive Body : Type :=
| BTarea (t : Tarea)
| BTareas (l : list Tarea)
| BError (error : string)
| BEliminada (mensaje : string) (tarea : option Tarea)
| BStats (stats : Stats)
| BExcepcion.

Record Response : Type := mkResponse {
  status : Z;
  body : Body
}.

(** [BExcepcion] is the page of the framework's default error handler: a
    handler that throws is answered with status 500 and that page.

    [res.json(b)] answers with status 200; [res.status(c).json(b)] with [c]. *)
Definition json (b : Body) : Response := {| status := 200; body := b |}.
Definition status_json (c : Z) (b : Body) : Response :=
  {| status := c; body := b |}.

(** *** Array methods *)

(** [Array.prototype.find]: the first element the callback accepts, or
    [undefined]. *)
Fixpoint find (p : Tarea -> bool) (l : list Tarea) : option Tarea :=
  match l with
  | [] => None
  | t :: l' => if p t then Some t else find p l'
  end.

(** [Array.prototype.findIndex]: the index of that element, or -1. *)
Fixpoint findIndex (p : Tarea -> bool) (l : list Tarea) : Z :=
  match l with
  | [] => -1
  | t :: l' =>
      if p t then 0
      else let i := findIndex p l' in
           if (i =? -1)%Z then -1 else (i + 1)%Z
  end.

(** [Array.prototype.splice(start, 1)]: the array without the element at
    [start], and the array of removed elements. *)
Definition splice1 (start : nat) (l : list Tarea) : list Tarea * list Tarea :=
  (take start l ++ drop (S start) l, take 1 (drop start l)).

(** The callback [t => t.id === id], with [id] the result of [parseInt]. *)
Definition id_eq (id : Num) (t : Tarea) : bool :=
  strict_eq (t !! "id") (Some (JNum id)).

(** An assignment through the reference returned by [find]: objects are
    shared, so the element of [tareas] at the position [find] stopped at is
    the one that changes. *)
Fixpoint assign_found (p : Tarea -> bool) (f : Tarea -> Tarea) (l : list Tarea)
  : list Tarea :=
  match l with
  | [] => []
  | t :: l' => if p t then f t :: l' else t :: assign_found p f l'
  end.

(** A property [k: v] of an object literal.  A property whose value is
    [undefined] reads as [undefined] and is dropped by [JSON.stringify]: it
    is modelled as absent. *)
Definition prop (k : string) (v : option JVal) (o : Obj) : Obj :=
  match v with
  | Some x => <[k := x]> o
  | None => o
  end.

(** [a || b] on values. *)
Definition or_else (a : option JVal) (b : JVal) : JVal :=
  match a with
  | Some x => if truthy x then x else b
  | None => b
  end.

(** *** GET /api/tareas *)

Record Query : Type := mkQuery {
  categoria : option JVal;
  prioridad : option JVal;
  completada : option JVal
}.

Definition get_tareas (q : Query) (s : Store) : Store * Response :=
  let tareasFiltradas := tareas s in
  let tareasFiltradas :=
    if truthy_u (categoria q)
    then List.filter (fun t => strict_eq (t !! "categoria") (categoria q))
           tareasFiltradas
    else tareasFiltradas in
  let tareasFiltradas :=
    if truthy_u (prioridad q)
    then List.filter (fun t => strict_eq (t !! "prioridad") (prioridad q))
           tareasFiltradas
    else tareasFiltradas in
  let tareasFiltradas :=
    match completada q with
    | Some c =>
        let isCompletada := strict_eq (Some c) (Some (JStr "true")) in
        List.filter
          (fun t => strict_eq (t !! "completada") (Some (JBool isCompletada)))
          tareasFiltradas
    | None => tareasFiltradas
    end in
  (s, json (BTareas tareasFiltradas)).

(** *** GET /api/tareas/:id *)

Definition no_encontrada : Response :=
  status_json 404 (BError "Tarea no encontrada").

Definition get_tarea (id : Num) (s : Store) : Store * Response :=
  match find (id_eq id) (tareas s) with
  | Some tarea => (s, json (BTarea tarea))
  | None => (s, no_encontrada)
  end.

(** *** POST /api/tareas

    [fecha] is the reading of the clock, [new Date().toISOString()]. *)
Definition post_tareas (fecha : string) (cuerpo : Obj) (s : Store)
  : Store * Response :=
  let titulo := cuerpo !! "titulo" in
  let descripcion := cuerpo !! "descripcion" in
  let categoria := cuerpo !! "categoria" in
  let prioridad := cuerpo !! "prioridad" in
  if negb (truthy_u titulo) || negb (truthy_u categoria)
     || negb (truthy_u prioridad)
  then
    (s, status_json 400
          (BError "Faltan campos requeridos: titulo, categoria, prioridad"))
  else
    let id := contadorId s in
    let contadorId' := (contadorId s + 1)%Z in
    let nuevaTarea : Tarea :=
      <["fecha" := JStr fecha]>
      (<["completada" := JBool false]>
      (prop "prioridad" prioridad
      (prop "categoria" categoria
      (<["descripcion" := or_else descripcion (JStr "")]>
      (prop "titulo" titulo
      (<["id" := JNum (NInt id)]> ∅)))))) in
    ({| tareas := tareas s ++ [nuevaTarea]; contadorId := contadorId' |},
     status_json 201 (BTarea nuevaTarea)).

(** *** PUT /api/tareas/:id

    [{...tareas[index], ...req.body, id}]: own properties of the stored
    task, overwritten by those of the body, overwritten by [id].  The
    index comes from [findIndex] and is in range. *)
Definition put_tarea (id : Num) (cuerpo : Obj) (s : Store) : Store * Response :=
  let index := findIndex (id_eq id) (tareas s) in
  if (index =? -1)%Z then (s, no_encontrada)
  else
    let i := Z.to_nat index in
    let actual : Tarea := default ∅ (tareas s !! i) in
    let nueva : Tarea := <["id" := JNum id]> (cuerpo ∪ actual) in
    let tareas' := <[i := nueva]> (tareas s) in
    ({| tareas := tareas'; contadorId := contadorId s |},
     json (BTarea (default ∅ (tareas' !! i)))).

(** *** PATCH /api/tareas/:id/toggle *)

Definition alternar (tarea : Tarea) : Tarea :=
  <["completada" := JBool (negb (truthy_u (tarea !! "completada")))]> tarea.

Definition patch_toggle (id : Num) (s : Store) : Store * Response :=
  match find (id_eq id) (tareas s) with
  | None => (s, no_encontrada)
  | Some tarea =>
      ({| tareas := assign_found (id_eq id) alternar (tareas s);
          contadorId := contadorId s |},
       json (BTarea (alternar tarea)))
  end.

(** *** DELETE /api/tareas/:id *)

Definition delete_tarea (id : Num) (s : Store) : Store * Response :=
  let index := findIndex (id_eq id) (tareas s) in
  if (index =? -1)%Z then (s, no_encontrada)
  else
    let '(tareas', tareaEliminada) := splice1 (Z.to_nat index) (tareas s) in
    ({| tareas := tareas'; contadorId := contadorId s |},
     json (BEliminada "Tarea eliminada" (tareaEliminada !! 0%nat))).

(** *** GET /api/estadisticas *)

(** The body of the [forEach] callback on the object
    [stats.porCategoria], once [t.categoria] is converted to the key [k]. *)
Definition contar_clave (porCat : gmap string Num) (k : string)
  : gmap string Num :=
  let porCat :=
    if negb (read_truthy (get_prop porCat k))
    then set_prop porCat k (NInt 0)
    else porCat in
  set_prop porCat k (num_succ (read_number (get_prop porCat k))).

(** The [forEach] callback: [stats.porCategoria[t.categoria]] converts
    the category to a property key, which can throw ([None]); the later
    conversions of the same value give the same key. *)
Definition contar (porCat : gmap string Num) (t : Tarea)
  : option (gmap string Num) :=
  match to_key (t !! "categoria") with
  | Some k => Some (contar_clave porCat k)
  | None => None
  end.

(** [Array.prototype.forEach] with a callback that can throw: the loop
    stops at the first exception. *)
Fixpoint forEach (f : gmap string Num -> Tarea -> option (gmap string Num))
    (l : list Tarea) (acc : gmap string Num) : option (gmap string Num) :=
  match l with
  | [] => Some acc
  | t :: l' =>
      match f acc t with
      | Some acc' => forEach f l' acc'
      | None => None
      end
  end.

(** An exception in the loop reaches the framework before [res.json] is
    called: the answer is the 500 of the default error handler.  The
    route assigns nothing outside its local [stats]. *)
Definition get_estadisticas (s : Store) : Store * Response :=
  match forEach contar (tareas s) ∅ with
  | Some porCat =>
      let stats :=
        {| total := length (tareas s);
           completadas :=
             length (List.filter (fun t => truthy_u (t !! "completada"))
                       (tareas s));
           pendientes :=
             length (List.filter (fun t => negb (truthy_u (t !! "completada")))
                       (tareas s));
           porCategoria := porCat |} in
      (s, json (BStats stats))
  | None => (s, status_json 500 BExcepcion)
  end.

(** *** Requests and runs *)

Inductive Request : Type :=
| GetTareas (q : Query)
| GetTarea (id : Num)
| PostTareas (fecha : string) (cuerpo : Obj)
| PutTarea (id : Num) (cuerpo : Obj)
| PatchToggle (id : Num)
| DeleteTarea (id : Num)
| GetEstadisticas.

Definition handle (r : Request) (s : Store) : Store * Response :=
  match r with
  | GetTareas q => get_tareas q s
  | GetTarea id => get_tarea id s
  | PostTareas fecha cuerpo => post_tareas fecha cuerpo s
  | PutTarea id cuerpo => put_tarea id cuerpo s
  | PatchToggle id => patch_toggle id s
  | DeleteTarea id => delete_tarea id s
  | GetEstadisticas => get_estadisticas s
  end.

(** Requests are served one at a time, each to completion. *)
Fixpoint run (rs : list Request) (s : Store) : Store * list Response :=
  match rs with
  | [] => (s, [])
  | r :: rs' =>
      let '(s1, resp) := handle r s in
      let '(s2, resps) := run rs' s1 in
      (s2, resp :: resps)
  end.

End Server.

(* ================================================================== *)
(** ** Vocabulary of the properties *)
(* ================================================================== *)

Module Spec.
Import Js Server.

(** [t] sits at index [i] of [l] and is the first element [p] accepts:
    the task the routes act on. *)
Definition primera (p : Tarea -> bool) (l : list Tarea) (i : nat) (t : Tarea)
  : Prop :=
  l !! i = Some t /\ p t = true /\
  forall j u, (j < i)%nat -> l !! j = Some u -> p u = false.

(** No task of [l] carries the id [id]. *)
Definition ausente (id : Num) (l : list Tarea) : Prop :=
  forall t, t ∈ l -> t !! "id" <> Some (JNum id).

(** The field [k] of a request body is missing or falsy. *)
Definition falta (k : string) (cuerpo : Obj) : Prop :=
  cuerpo !! k = None \/ exists v, cuerpo !! k = Some v /\ truthy v = false.

(** The numeric id of a task, when it has one. *)
Definition id_num (t : Tarea) : option Z :=
  match t !! "id" with
  | Some (JNum (NInt n)) => Some n
  | _ => None
  end.

(** No two positions of the collection hold tasks with the same id. *)
Definition ids_unicos (l : list Tarea) : Prop :=
  forall i j t u,
    l !! i = Some t -> l !! j = Some u -> t !! "id" = u !! "id" -> i = j.

(** An initial collection fit for a counter starting at [c]: numeric ids,
    pairwise distinct, all below [c]. *)
Definition semilla_ok (c : Z) (l : list Tarea) : Prop :=
  NoDup (id_num <$> l) /\
  Forall (fun t => exists n, id_num t = Some n /\ (n < c)%Z) l.

(** A store whose ids are numeric, distinct and below the counter. *)
Definition store_ok (s : Store) : Prop := semilla_ok (contadorId s) (tareas s).

(** The id carried by the answer to a successful creation. *)
Definition creada (r : Response) : option Z :=
  if (status r =? 201)%Z then
    match body r with
    | BTarea t => id_num t
    | _ => None
    end
  else None.

Definition ids_creadas (rs : list Response) : list Z := omap creada rs.

Definition es_201 (r : Response) : bool := (status r =? 201)%Z.

(** The list of tasks an answer carries. *)
Definition tareas_de (r : Response) : list Tarea :=
  match body r with
  | BTareas l => l
  | _ => []
  end.

(** List, in the words of the specification: a filter that is supplied
    must match exactly; the supplied filters are combined with AND. *)
Definition cumple (q : Query) (t : Tarea) : bool :=
  match categoria q with
  | Some c => strict_eq (t !! "categoria") (Some c)
  | None => true
  end
  && match prioridad q with
     | Some p => strict_eq (t !! "prioridad") (Some p)
     | None => true
     end
  && match completada q with
     | Some c =>
         strict_eq (t !! "completada")
           (Some (JBool (strict_eq (Some c) (Some (JStr "true")))))
     | None => true
     end.

Definition listar_spec (q : Query) (l : list Tarea) : list Tarea :=
  List.filter (cumple q) l.

(** The query with its falsy category and priority filters dropped. *)
Definition efectiva (q : Query) : Query :=
  {| categoria := if truthy_u (categoria q) then categoria q else None;
     prioridad := if truthy_u (prioridad q) then prioridad q else None;
     completada := completada q |}.

(** A key that every object inherits from [Object.prototype]. *)
Definition heredada (k : string) : bool := is_proto k || is_method k.

(** The property key of the category of a task; [None] when the
    conversion throws. *)
Definition clave (t : Tarea) : option string := to_key (t !! "categoria").

(** The category of [t] converts to a key. *)
Definition convierte (t : Tarea) : bool :=
  match clave t with
  | Some _ => true
  | None => false
  end.

(** The category of [t] converts to the key [k]. *)
Definition tiene_clave (k : string) (t : Tarea) : bool :=
  match clave t with
  | Some k' => String.eqb k' k
  | None => false
  end.

(** The category of [t] converts to a key that is not inherited. *)
Definition clave_propia (t : Tarea) : bool :=
  match clave t with
  | Some k => negb (heredada k)
  | None => false
  end.

(** The number of tasks of [l] whose category is [k], as the entry that a
    count table holds for [k]: no entry when there is none. *)
Definition cuenta (k : string) (l : list Tarea) : option Num :=
  let c := length (List.filter (tiene_clave k) l) in
  if (c =? 0)%nat then None else Some (NInt (Z.of_nat c)).

Definition num_add (a b : Num) : Num :=
  match a, b with
  | NInt x, NInt y => NInt (x + y)
  | _, _ => NaN
  end.

(** The sum of the values of a count table. *)
Definition suma_valores (m : gmap string Num) : Num :=
  map_fold (fun _ v acc => num_add acc v) (NInt 0) m.

(** The body of the example scenario of the specification. *)
Definition cuerpo_leche : Obj :=
  <["titulo" := JStr "Buy milk"]>
    (<["categoria" := JStr "Personal"]> (<["prioridad" := JStr "media"]> ∅)).

(** *** Vocabulary of the further properties *)

(** The answer to a successful deletion. *)
Definition es_eliminada (r : Response) : bool :=
  match body r with
  | BEliminada _ _ => true
  | _ => false
  end.

Definition cuantas (p : Response -> bool) (rs : list Response) : nat :=
  length (List.filter p rs).

(** The [completada] of a task is a boolean. *)
Definition es_booleano (o : option JVal) : bool :=
  match o with
  | Some (JBool _) => true
  | _ => false
  end.

Definition booleana (t : Tarea) : Prop :=
  es_booleano (t !! "completada") = true.

(** A request that cannot store a non-boolean [completada]: anything but
    a PUT whose body carries [completada] with a non-boolean value. *)
Definition inocua (r : Request) : bool :=
  match r with
  | PutTarea _ cuerpo =>
      match cuerpo !! "completada" with
      | None => true
      | Some v => es_booleano (Some v)
      end
  | _ => true
  end.

(** The [categoria] of a task is a string. *)
Definition categoria_texto (t : Tarea) : Prop :=
  exists c, t !! "categoria" = Some (JStr c).

(** The number of tasks of [l] whose category key is [k]. *)
Definition veces (k : string) (l : list Tarea) : nat :=
  length (List.filter (tiene_clave k) l).

(** The entry of the statistics table for [k], for every key: the count
    on an ordinary key; nothing for [__proto__]; and, on the name of an
    inherited method, [NaN] after the first task and one less than the
    count from the second on. *)
Definition entrada (k : string) (l : list Tarea) : option Num :=
  if is_proto k then None
  else if is_method k then
    match veces k l with
    | O => None
    | S O => Some NaN
    | S (S n) => Some (NInt (Z.of_nat (S n)))
    end
  else cuenta k l.

(** The ids of the collection, in order, are increasing numbers below [c]. *)
Definition ordenada (c : Z) (l : list Tarea) : Prop :=
  exists ns : list Z,
    id_num <$> l = Some <$> ns /\
    StronglySorted Z.lt ns /\
    Forall (fun n => (n < c)%Z) ns.

End Spec.

(* ================================================================== *)
(** ** Properties *)
(* ================================================================== *)

Import Js Server Spec.

(** *** [find] and [findIndex] *)

Section Busqueda.
Variable p : Tarea -> bool.

Lemma find_None_Forall (l : list Tarea) :
  find p l = None <-> Forall (fun t => p t = false) l.
Proof.
  induction l as [|t l IH]; simpl.
  - split; [constructor | done].
  - destruct (p t) eqn:E.
    + split; [done | intros H; inversion H; congruence].
    + rewrite IH. split; [by constructor | by inversion 1].
Qed.

Lemma findIndex_ge (l : list Tarea) : (-1 <= findIndex p l)%Z.
Proof.
  induction l as [|t l IH]; simpl; [lia|].
  destruct (p t); [lia|]. destruct (Z.eqb_spec (findIndex p l) (-1)); lia.
Qed.

Lemma findIndex_None (l : list Tarea) :
  findIndex p l = (-1)%Z <-> find p l = None.
Proof.
  induction l as [|t l IH]; simpl; [done|].
  destruct (p t); [done|].
  pose proof (findIndex_ge l) as Hge.
  destruct (Z.eqb_spec (findIndex p l) (-1)) as [Heq|Hne]; [tauto|].
  split; [lia|]. intros Hf; apply IH in Hf; lia.
Qed.

Lemma primera_find (l : list Tarea) (i : nat) (t : Tarea) :
  primera p l i t -> find p l = Some t /\ findIndex p l = Z.of_nat i.
Proof.
  revert i. induction l as [|u l IH]; intros i (Hl & Hp & Hlt).
  - done.
  - destruct i as [|i]; simpl in *.
    + injection Hl as ->. by rewrite Hp.
    + rewrite (Hlt 0%nat u) by (done || lia).
      destruct (IH i) as [-> ->].
      { split; [done|]. split; [done|].
        intros j v Hj Hv. apply (Hlt (S j) v); [lia | done]. }
      destruct (Z.eqb_spec (Z.of_nat i) (-1)); [lia|]. split; [done | lia].
Qed.

Lemma find_primera (l : list Tarea) (t : Tarea) :
  find p l = Some t -> exists i, primera p l i t.
Proof.
  induction l as [|u l IH]; simpl; [done|].
  destruct (p u) eqn:E.
  - intros [= ->]. exists 0%nat. repeat split; [done|]. intros; lia.
  - intros H. destruct (IH H) as (i & Hl & Hp & Hlt).
    exists (S i). repeat split; [done..|].
    intros [|j] v Hj Hv; simpl in *; [congruence|].
    apply (Hlt j v); [lia | done].
Qed.

Lemma assign_found_primera (f : Tarea -> Tarea) (l : list Tarea) i t :
  primera p l i t -> assign_found p f l = <[i := f t]> l.
Proof.
  revert i. induction l as [|u l IH]; intros i (Hl & Hp & Hlt).
  - done.
  - destruct i as [|i]; simpl in *.
    + injection Hl as ->. by rewrite Hp.
    + rewrite (Hlt 0%nat u) by (done || lia). f_equal. apply IH.
      split; [done|]. split; [done|].
      intros j v Hj Hv. apply (Hlt (S j) v); [lia | done].
Qed.

Lemma existe_primera (l : list Tarea) (t : Tarea) :
  t ∈ l -> p t = true -> exists i u, primera p l i u.
Proof.
  intros Hin Hp. destruct (find p l) as [u|] eqn:E.
  - destruct (find_primera _ _ E) as [i Hi]. by exists i, u.
  - apply find_None_Forall in E. rewrite Forall_forall in E.
    specialize (E t Hin). congruence.
Qed.
End Busqueda.

Lemma id_eq_true (id : Num) (t : Tarea) :
  id_eq id t = true ->
  exists n, id = NInt n /\ t !! "id" = Some (JNum (NInt n)).
Proof.
  unfold id_eq, strict_eq. intros H.
  destruct (t !! "id") as [[| |[x|]| | |]|]; try done.
  destruct id as [y|]; [|done].
  apply Z.eqb_eq in H as ->. by exists y.
Qed.

Lemma id_eq_intro (n : Z) (t : Tarea) :
  t !! "id" = Some (JNum (NInt n)) -> id_eq (NInt n) t = true.
Proof. unfold id_eq. intros ->. simpl. apply Z.eqb_refl. Qed.

Lemma ausente_Forall (id : Num) (l : list Tarea) :
  ausente id l -> Forall (fun t => id_eq id t = false) l.
Proof.
  intros Ha. apply Forall_forall. intros t Ht.
  destruct (id_eq id t) eqn:E; [|done].
  apply id_eq_true in E as (n & -> & E). by destruct (Ha t Ht).
Qed.

(** *** Unknown ids *)

Lemma rutas_sin_tarea (id : Num) (cuerpo : Obj) (s : Store) :
  find (id_eq id) (tareas s) = None ->
  get_tarea id s = (s, no_encontrada) /\
  put_tarea id cuerpo s = (s, no_encontrada) /\
  patch_toggle id s = (s, no_encontrada) /\
  delete_tarea id s = (s, no_encontrada).
Proof.
  intros Ha. pose proof Ha as Hi. apply findIndex_None in Hi.
  unfold get_tarea, put_tarea, patch_toggle, delete_tarea.
  rewrite Ha, Hi. simpl. done.
Qed.

(** C5: for an id that no task of the collection carries, each of the
    routes GET, PUT, PATCH toggle and DELETE on [/api/tareas/:id] answers
    404 with the not-found error and leaves the whole store (collection
    and counter) as it was. *)
Theorem id_ausente_404 (id : Num) (cuerpo : Obj) (s : Store) :
  ausente id (tareas s) ->
  get_tarea id s = (s, status_json 404 (BError "Tarea no encontrada")) /\
  put_tarea id cuerpo s = (s, status_json 404 (BError "Tarea no encontrada")) /\
  patch_toggle id s = (s, status_json 404 (BError "Tarea no encontrada")) /\
  delete_tarea id s = (s, status_json 404 (BError "Tarea no encontrada")).
Proof.
  intros Ha. apply ausente_Forall, find_None_Forall in Ha.
  by apply rutas_sin_tarea.
Qed.

Lemma id_ausente_404_witness :
  let s := inicio (semilla_ejemplo "2024-01-01T00:00:00.000Z") in
  ausente (NInt 7) (tareas s) /\
  get_tarea (NInt 7) s = (s, status_json 404 (BError "Tarea no encontrada")) /\
  put_tarea (NInt 7) ∅ s = (s, status_json 404 (BError "Tarea no encontrada")) /\
  patch_toggle (NInt 7) s = (s, status_json 404 (BError "Tarea no encontrada")) /\
  delete_tarea (NInt 7) s = (s, status_json 404 (BError "Tarea no encontrada")).
Proof.
  intros s.
  assert (Ha : ausente (NInt 7) (tareas s)).
  { intros t Ht. simpl in Ht.
    repeat (apply elem_of_cons in Ht as [-> | Ht]); try (vm_compute; discriminate).
    by apply elem_of_nil in Ht. }
  split; [exact Ha | exact (id_ausente_404 (NInt 7) ∅ s Ha)].
Defined.

(** *** Creation *)

Lemma falta_truthy_u (k : string) (cuerpo : Obj) :
  falta k cuerpo <-> truthy_u (cuerpo !! k) = false.
Proof.
  unfold falta. destruct (cuerpo !! k) as [v|]; simpl.
  - split.
    + intros [? | (w & [= <-] & Hw)]; done.
    + intros H. right. by exists v.
  - split; [done | by left].
Qed.

Lemma lookup_prop_ne (k k' : string) (v : option JVal) (o : Obj) :
  k <> k' -> prop k v o !! k' = o !! k'.
Proof. intros Hne. destruct v; simpl; [by rewrite lookup_insert_ne | done]. Qed.

(** C2: a creation whose [titulo], [categoria] or [prioridad] is missing
    or falsy answers 400 with the validation error and leaves the
    collection and the id counter unchanged; and for every creation, valid
    or not, the counter grows by one exactly when the answer is 201. *)
Theorem post_invalido_sin_efecto (fecha : string) (cuerpo : Obj) (s : Store) :
  falta "titulo" cuerpo \/ falta "categoria" cuerpo \/ falta "prioridad" cuerpo ->
  post_tareas fecha cuerpo s =
    (s, status_json 400
          (BError "Faltan campos requeridos: titulo, categoria, prioridad")) /\
  forall fecha' cuerpo' s',
    contadorId (fst (post_tareas fecha' cuerpo' s')) =
    (contadorId s' +
     if es_201 (snd (post_tareas fecha' cuerpo' s')) then 1 else 0)%Z.
Proof.
  intros H. split.
  - unfold post_tareas.
    rewrite !falta_truthy_u in H.
    destruct H as [-> | [-> | ->]]; simpl;
      rewrite ?orb_true_r; done.
  - intros fecha' cuerpo' s'. unfold post_tareas.
    destruct (negb _ || negb _ || negb _); simpl; lia.
Qed.

Lemma post_invalido_sin_efecto_witness :
  let cuerpo : Obj :=
    <["titulo" := JStr ""]>
      (<["categoria" := JStr "Personal"]> (<["prioridad" := JStr "media"]> ∅)) in
  let s := inicio [] in
  post_tareas "2024-01-01T00:00:00.000Z" cuerpo s =
    (s, status_json 400
          (BError "Faltan campos requeridos: titulo, categoria, prioridad")).
Proof.
  intros cuerpo s.
  apply (post_invalido_sin_efecto "2024-01-01T00:00:00.000Z" cuerpo s).
  left. right. exists (JStr ""). split; reflexivity.
Defined.

(** C8: a creation whose [titulo], [categoria] and [prioridad] are all
    present and truthy answers 201; the new task carries the current value
    of the counter as id, [completada] false, the clock reading as
    [fecha], the supplied title, category and priority, the supplied
    description when there is one (and it is truthy) or else the empty
    string, in particular when it is omitted, and no other key; it is
    appended at the end of the collection, it is the task in the answer,
    and the counter grows by one. *)
Theorem post_valido_crea (fecha : string) (cuerpo : Obj) (s : Store)
    (titulo categoria prioridad : JVal) :
  cuerpo !! "titulo" = Some titulo -> truthy titulo = true ->
  cuerpo !! "categoria" = Some categoria -> truthy categoria = true ->
  cuerpo !! "prioridad" = Some prioridad -> truthy prioridad = true ->
  exists t : Tarea,
    post_tareas fecha cuerpo s =
      ({| tareas := tareas s ++ [t]; contadorId := (contadorId s + 1)%Z |},
       status_json 201 (BTarea t)) /\
    t !! "id" = Some (JNum (NInt (contadorId s))) /\
    t !! "titulo" = Some titulo /\
    t !! "categoria" = Some categoria /\
    t !! "prioridad" = Some prioridad /\
    t !! "completada" = Some (JBool false) /\
    t !! "fecha" = Some (JStr fecha) /\
    t !! "descripcion" = Some (or_else (cuerpo !! "descripcion") (JStr "")) /\
    (cuerpo !! "descripcion" = None -> t !! "descripcion" = Some (JStr "")) /\
    (forall d, cuerpo !! "descripcion" = Some d -> truthy d = true ->
               t !! "descripcion" = Some d) /\
    (forall d, cuerpo !! "descripcion" = Some d -> truthy d = false ->
               t !! "descripcion" = Some (JStr "")) /\
    (forall k, k ∉ ["id"; "titulo"; "descripcion"; "categoria"; "prioridad";
                    "completada"; "fecha"] -> t !! k = None).
Proof.
  intros Ht Htt Hc Hct Hp Hpt.
  unfold post_tareas. rewrite Ht, Hc, Hp. simpl. rewrite Htt, Hct, Hpt. simpl.
  eexists. split; [reflexivity|].
  repeat split.
  - intros Hd. rewrite Hd. reflexivity.
  - intros d Hd Hdt. rewrite lookup_insert_ne by done.
    rewrite lookup_insert_ne by done. rewrite lookup_insert_ne by done.
    rewrite lookup_insert_ne by done. rewrite lookup_insert_eq.
    rewrite Hd. simpl. by rewrite Hdt.
  - intros d Hd Hdt. rewrite lookup_insert_ne by done.
    rewrite lookup_insert_ne by done. rewrite lookup_insert_ne by done.
    rewrite lookup_insert_ne by done. rewrite lookup_insert_eq.
    rewrite Hd. simpl. by rewrite Hdt.
  - intros k Hk. rewrite !not_elem_of_cons in Hk.
    destruct Hk as (? & ? & ? & ? & ? & ? & ? & _).
    by simplify_map_eq.
Qed.

Lemma post_valido_crea_witness :
  let cuerpo : Obj :=
    <["descripcion" := JStr "Semi-skimmed"]> cuerpo_leche in
  exists t : Tarea,
    post_tareas "2024-01-01T00:00:00.000Z" cuerpo (inicio []) =
      ({| tareas := [t]; contadorId := 4 |}, status_json 201 (BTarea t)) /\
    t !! "id" = Some (JNum (NInt 3)) /\
    t !! "completada" = Some (JBool false) /\
    t !! "descripcion" = Some (JStr "Semi-skimmed").
Proof.
  intros cuerpo.
  destruct (post_valido_crea "2024-01-01T00:00:00.000Z" cuerpo (inicio [])
              (JStr "Buy milk") (JStr "Personal") (JStr "media"))
    as (t & Hpost & Hid & _ & _ & _ & Hcomp & _ & _ & _ & Hdesc & _);
    try reflexivity.
  exists t. repeat split; [exact Hpost | exact Hid | exact Hcomp |].
  apply Hdesc; reflexivity.
Defined.

(** *** Listing *)

Lemma filter_filter_andb {A} (p1 p2 : A -> bool) (l : list A) :
  List.filter p2 (List.filter p1 l) = List.filter (fun x => p1 x && p2 x) l.
Proof.
  induction l as [|x l IH]; simpl; [done|].
  destruct (p1 x); simpl; [|done].
  destruct (p2 x); by rewrite IH.
Qed.

Lemma filter_all {A} (l : list A) : List.filter (fun _ => true) l = l.
Proof. induction l as [|x l IH]; simpl; [done | by rewrite IH]. Qed.

Lemma filter_ext_bool {A} (p1 p2 : A -> bool) (l : list A) :
  (forall x, p1 x = p2 x) -> List.filter p1 l = List.filter p2 l.
Proof.
  intros H. induction l as [|x l IH]; simpl; [done|].
  rewrite H, IH. done.
Qed.

(** The three guarded filters of the route, as one filter. *)
Lemma get_tareas_efectiva (q : Query) (s : Store) :
  get_tareas q s = (s, json (BTareas (listar_spec (efectiva q) (tareas s)))).
Proof.
  unfold get_tareas, listar_spec. do 3 f_equal.
  destruct q as [c p d]; simpl.
  set (fc := fun t : Tarea => strict_eq (t !! "categoria") c).
  set (fp := fun t : Tarea => strict_eq (t !! "prioridad") p).
  assert (Hc : (if truthy_u c then List.filter fc (tareas s) else tareas s) =
               List.filter (fun t => if truthy_u c then fc t else true) (tareas s)).
  { destruct (truthy_u c); [done | by rewrite filter_all]. }
  rewrite Hc. clear Hc.
  set (l1 := List.filter _ (tareas s)).
  assert (Hp : (if truthy_u p then List.filter fp l1 else l1) =
               List.filter (fun t => if truthy_u p then fp t else true) l1).
  { destruct (truthy_u p); [done | by rewrite filter_all]. }
  rewrite Hp. clear Hp. subst l1. rewrite filter_filter_andb.
  destruct d as [d|].
  - rewrite filter_filter_andb. apply filter_ext_bool. intros t.
    unfold cumple, fc, fp; simpl.
    destruct (truthy_u c) eqn:Ec, (truthy_u p) eqn:Ep; simpl;
      try (destruct c; [|done]); try (destruct p; [|done]); done.
  - apply filter_ext_bool. intros t.
    unfold cumple, fc, fp; simpl.
    destruct (truthy_u c) eqn:Ec, (truthy_u p) eqn:Ep; simpl;
      try (destruct c; [|done]); try (destruct p; [|done]);
      rewrite ?andb_true_r; done.
Qed.

(** C3, amended: for every store and every query, the listing answers 200
    with exactly the tasks that satisfy all the filters in effect, in
    collection order, and leaves the store unchanged; the [completada]
    filter is in effect when it is present, the [categoria] and
    [prioridad] filters when they are present and not the empty string (a
    falsy value counts as not supplied); with no filter at all it returns
    every task. *)
Theorem get_tareas_filtra (q : Query) (s : Store) :
  get_tareas q s = (s, json (BTareas (listar_spec (efectiva q) (tareas s)))) /\
  listar_spec (efectiva q) (tareas s) `sublist_of` tareas s /\
  get_tareas (mkQuery None None None) s = (s, json (BTareas (tareas s))).
Proof.
  split; [apply get_tareas_efectiva|]. split.
  - unfold listar_spec. generalize (cumple (efectiva q)). intros f.
    induction (tareas s) as [|t l IH]; simpl; [constructor|].
    destruct (f t); by constructor.
  - rewrite get_tareas_efectiva. unfold listar_spec, efectiva, cumple. simpl.
    by rewrite filter_all.
Qed.

(** C3 as stated fails on [GET /api/tareas?categoria=]: the category
    filter is supplied with the empty string, no task has that category,
    and the route returns the task anyway. *)
Lemma get_tareas_categoria_vacia :
  let s := fst (run [PostTareas "2024-01-01T00:00:00.000Z" cuerpo_leche]
                  (inicio [])) in
  let q := mkQuery (Some (JStr "")) None None in
  listar_spec q (tareas s) = [] /\
  tareas_de (snd (get_tareas q s)) = tareas s /\
  tareas_de (snd (get_tareas q s)) <> listar_spec q (tareas s).
Proof.
  intros s q. split; [reflexivity|]. split; [reflexivity|].
  intros H. apply (f_equal length) in H. vm_compute in H. discriminate.
Qed.

Lemma strict_eq_true_str (c : JVal) :
  strict_eq (Some c) (Some (JStr "true")) = true <-> c = JStr "true".
Proof.
  destruct c as [| |[|]|x| |]; simpl; try (split; [done | discriminate]).
  rewrite String.eqb_eq. split; [by intros -> | by intros [= ->]].
Qed.

(** C10: when the [completada] parameter is present, the listing keeps,
    among the tasks that pass the other filters, those whose [completada]
    is [true] if the parameter is the string "true", and those whose
    [completada] is [false] for every other value of the parameter. *)
Theorem get_tareas_completada (q : Query) (c : JVal) (s : Store) :
  completada q = Some c ->
  let otras := tareas_de (snd (get_tareas
                 (mkQuery (categoria q) (prioridad q) None) s)) in
  (c = JStr "true" ->
   tareas_de (snd (get_tareas q s)) =
   List.filter (fun t => strict_eq (t !! "completada") (Some (JBool true))) otras) /\
  (c <> JStr "true" ->
   tareas_de (snd (get_tareas q s)) =
   List.filter (fun t => strict_eq (t !! "completada") (Some (JBool false))) otras).
Proof.
  intros Hc otras. subst otras.
  destruct q as [qc qp qd]. simpl in Hc. subst qd.
  unfold get_tareas; cbn -[strict_eq].
  split; intros H.
  - apply strict_eq_true_str in H. by rewrite H.
  - destruct (strict_eq (Some c) (Some (JStr "true"))) eqn:E; [|done].
    apply strict_eq_true_str in E. done.
Qed.

Lemma get_tareas_completada_witness :
  let s := fst (run [PostTareas "2024-01-01T00:00:00.000Z" cuerpo_leche;
                     PatchToggle (NInt 3)] (inicio [])) in
  tareas_de (snd (get_tareas (mkQuery None None (Some (JStr "true"))) s)) =
    tareas s /\
  tareas_de (snd (get_tareas (mkQuery None None (Some (JStr "0"))) s)) = [].
Proof.
  intros s. split.
  - pose proof (get_tareas_completada
                  (mkQuery None None (Some (JStr "true"))) (JStr "true") s
                  eq_refl) as [H _].
    rewrite (H eq_refl). reflexivity.
  - pose proof (get_tareas_completada
                  (mkQuery None None (Some (JStr "0"))) (JStr "0") s
                  eq_refl) as [_ H].
    rewrite H; [reflexivity | discriminate].
Defined.

(** *** Update, toggle, delete on a task of the collection *)

Lemma primera_lt (p : Tarea -> bool) (l : list Tarea) i t :
  primera p l i t -> (i < length l)%nat.
Proof. intros (Hl & _). by apply lookup_lt_Some in Hl. Qed.

Lemma primera_insert (p : Tarea -> bool) (l : list Tarea) i t t' :
  primera p l i t -> p t' = true -> primera p (<[i := t']> l) i t'.
Proof.
  intros Hpr Hp'. pose proof (primera_lt _ _ _ _ Hpr) as Hlt.
  destruct Hpr as (Hl & Hp & Hbefore).
  split; [by apply list_lookup_insert_eq|]. split; [done|].
  intros j u Hj. rewrite list_lookup_insert_ne by lia. by apply Hbefore.
Qed.

Lemma put_tarea_primera (id : Num) (cuerpo : Obj) (s : Store)
    (i : nat) (t : Tarea) :
  primera (id_eq id) (tareas s) i t ->
  let t' : Tarea := <["id" := JNum id]> (cuerpo ∪ t) in
  put_tarea id cuerpo s =
    ({| tareas := <[i := t']> (tareas s); contadorId := contadorId s |},
     json (BTarea t')).
Proof.
  intros Hpr t'. pose proof (primera_lt _ _ _ _ Hpr) as Hlt.
  destruct (primera_find _ _ _ _ Hpr) as [_ Hidx].
  destruct Hpr as (Hl & Hp & _).
  unfold put_tarea. rewrite Hidx.
  destruct (Z.eqb_spec (Z.of_nat i) (-1)) as [?|_]; [lia|].
  rewrite Nat2Z.id, Hl. simpl.
  by rewrite list_lookup_insert_eq by done.
Qed.

Lemma delete_tarea_primera (id : Num) (s : Store) (i : nat) (t : Tarea) :
  primera (id_eq id) (tareas s) i t ->
  delete_tarea id s =
    ({| tareas := delete i (tareas s); contadorId := contadorId s |},
     json (BEliminada "Tarea eliminada" (Some t))).
Proof.
  intros Hpr. pose proof (primera_lt _ _ _ _ Hpr) as Hlt.
  destruct (primera_find _ _ _ _ Hpr) as [_ Hidx].
  destruct Hpr as (Hl & Hp & _).
  unfold delete_tarea, splice1. rewrite Hidx.
  destruct (Z.eqb_spec (Z.of_nat i) (-1)) as [?|_]; [lia|].
  rewrite Nat2Z.id, <- delete_take_drop. do 3 f_equal.
  rewrite lookup_take by lia. rewrite lookup_drop, Nat.add_0_r. done.
Qed.

(** With unique ids, a task that carries the id is the first that does. *)
Lemma unicos_primera (id : Num) (l : list Tarea) (i : nat) (t : Tarea) :
  ids_unicos l -> l !! i = Some t -> id_eq id t = true ->
  primera (id_eq id) l i t.
Proof.
  intros Hu Hl Hp. split; [done|]. split; [done|].
  intros j u Hj Hlj. destruct (id_eq id u) eqn:E; [|done].
  apply id_eq_true in Hp as (n & -> & Ht).
  apply id_eq_true in E as (m & [= <-] & Hm).
  assert (j = i) by (apply (Hu j i u t); congruence). lia.
Qed.

(** C4: for a task of the collection (the first one carrying the id of
    the path), PUT answers 200 with the updated task, which has every
    property of the body (other than [id]) at the value the body gives
    it, every property the body omits at its prior value, and the id it
    had before, even when the body carries another [id]; the updated task
    takes the place of the old one, the other positions and the length of
    the collection are unchanged, and so is the counter. *)
Theorem put_tarea_mezcla (id : Num) (cuerpo : Obj) (s : Store)
    (i : nat) (t : Tarea) :
  primera (id_eq id) (tareas s) i t ->
  exists t' : Tarea,
    put_tarea id cuerpo s =
      ({| tareas := <[i := t']> (tareas s); contadorId := contadorId s |},
       json (BTarea t')) /\
    t' !! "id" = t !! "id" /\
    (forall k v, k <> "id" -> cuerpo !! k = Some v -> t' !! k = Some v) /\
    (forall k, k <> "id" -> cuerpo !! k = None -> t' !! k = t !! k) /\
    <[i := t']> (tareas s) !! i = Some t' /\
    length (<[i := t']> (tareas s)) = length (tareas s) /\
    (forall j, j <> i -> <[i := t']> (tareas s) !! j = tareas s !! j).
Proof.
  intros Hpr. pose proof (primera_lt _ _ _ _ Hpr) as Hlt.
  exists (<["id" := JNum id]> (cuerpo ∪ t)).
  split; [by apply put_tarea_primera|].
  destruct Hpr as (Hl & Hp & _).
  split.
  { rewrite lookup_insert_eq.
    apply id_eq_true in Hp as (n & -> & ->). done. }
  split.
  { intros k v Hk Hv. rewrite lookup_insert_ne by done.
    by apply lookup_union_Some_l. }
  split.
  { intros k Hk Hv. rewrite lookup_insert_ne by done.
    by apply lookup_union_r. }
  split; [by apply list_lookup_insert_eq|].
  split; [apply length_insert|].
  intros j Hj. by apply list_lookup_insert_ne.
Qed.

Lemma put_tarea_mezcla_witness :
  let s := inicio (semilla_ejemplo "2024-01-01T00:00:00.000Z") in
  let cuerpo : Obj :=
    <["id" := JNum (NInt 99)]> (<["prioridad" := JStr "baja"]> ∅) in
  exists t' : Tarea,
    snd (put_tarea (NInt 2) cuerpo s) = json (BTarea t') /\
    tareas (fst (put_tarea (NInt 2) cuerpo s)) !! 1%nat = Some t' /\
    t' !! "id" = Some (JNum (NInt 2)) /\
    t' !! "prioridad" = Some (JStr "baja") /\
    t' !! "titulo" = Some (JStr "Hacer la compra").
Proof.
  intros s cuerpo.
  assert (Hpr : primera (id_eq (NInt 2)) (tareas s) 1
                  (tarea_ejemplo 2 "Hacer la compra" "Comprar frutas y verduras"
                     "Personal" "media" "2024-01-01T00:00:00.000Z")).
  { split; [reflexivity|]. split; [reflexivity|].
    intros [|j] u Hj Hu; [|lia]. injection Hu as <-. reflexivity. }
  destruct (put_tarea_mezcla (NInt 2) cuerpo s 1 _ Hpr)
    as (t' & Hput & Hid & Hsup & Hom & Hpos & _).
  exists t'. rewrite Hput. simpl.
  split; [reflexivity|]. split; [exact Hpos|]. split; [by rewrite Hid|].
  split; [by apply Hsup | by rewrite Hom].
Defined.

(** C6: for a task of the collection (the first one carrying the id of
    the path), DELETE answers 200 with that very task, the one GET
    answers for the same id; the collection loses exactly that position:
    it is one shorter, the tasks before it keep their index and the tasks
    after it move down by one, in order; the counter is unchanged. *)
Theorem delete_tarea_elimina (id : Num) (s : Store) (i : nat) (t : Tarea) :
  primera (id_eq id) (tareas s) i t ->
  let resto := take i (tareas s) ++ drop (S i) (tareas s) in
  get_tarea id s = (s, json (BTarea t)) /\
  delete_tarea id s =
    ({| tareas := resto; contadorId := contadorId s |},
     json (BEliminada "Tarea eliminada" (Some t))) /\
  S (length resto) = length (tareas s) /\
  (forall j, (j < i)%nat -> resto !! j = tareas s !! j) /\
  (forall j, (i <= j)%nat -> resto !! j = tareas s !! S j).
Proof.
  intros Hpr resto. pose proof (primera_lt _ _ _ _ Hpr) as Hlt.
  destruct (primera_find _ _ _ _ Hpr) as [Hfind _].
  split; [unfold get_tarea; by rewrite Hfind|].
  subst resto. rewrite <- delete_take_drop.
  split; [by apply delete_tarea_primera|].
  destruct Hpr as (Hl & _).
  split; [rewrite length_delete by eauto; lia|].
  split.
  - intros j Hj. by apply list_lookup_delete_lt.
  - intros j Hj. by apply list_lookup_delete_ge.
Qed.

Lemma delete_tarea_elimina_witness :
  let s := inicio (semilla_ejemplo "2024-01-01T00:00:00.000Z") in
  let t := tarea_ejemplo 1 "Aprender Node.js" "Completar el tutorial de Node.js"
             "Educación" "alta" "2024-01-01T00:00:00.000Z" in
  get_tarea (NInt 1) s = (s, json (BTarea t)) /\
  snd (delete_tarea (NInt 1) s) = json (BEliminada "Tarea eliminada" (Some t)) /\
  length (tareas (fst (delete_tarea (NInt 1) s))) = 1%nat.
Proof.
  intros s t.
  assert (Hpr : primera (id_eq (NInt 1)) (tareas s) 0 t).
  { split; [reflexivity|]. split; [reflexivity|]. intros j u Hj. lia. }
  destruct (delete_tarea_elimina (NInt 1) s 0 t Hpr) as (Hg & Hd & Hlen & _).
  rewrite Hd. simpl. split; [exact Hg|]. split; reflexivity.
Defined.

Lemma alternar_id (t : Tarea) : alternar t !! "id" = t !! "id".
Proof. unfold alternar. by rewrite lookup_insert_ne. Qed.

Lemma id_eq_alternar (id : Num) (t : Tarea) :
  id_eq id (alternar t) = id_eq id t.
Proof. unfold id_eq. by rewrite alternar_id. Qed.

Lemma patch_toggle_primera (id : Num) (s : Store) (i : nat) (t : Tarea) :
  primera (id_eq id) (tareas s) i t ->
  patch_toggle id s =
    ({| tareas := <[i := alternar t]> (tareas s); contadorId := contadorId s |},
     json (BTarea (alternar t))).
Proof.
  intros Hpr. unfold patch_toggle.
  destruct (primera_find _ _ _ _ Hpr) as [-> _].
  by rewrite (assign_found_primera _ alternar _ _ _ Hpr).
Qed.

(** C9, amended: for a task of the collection (the first one carrying
    the id of the path), one toggle answers 200 with the task whose
    [completada] is the logical negation of its prior value (of its
    truthiness, when the value is not a boolean), every other property
    and the position being unchanged; a second toggle sets [completada]
    to the truthiness of the original value, so that, when the original
    value is a boolean, two toggles restore the task and the whole store. *)
Theorem patch_toggle_dos_veces (id : Num) (s : Store) (i : nat) (t : Tarea) :
  primera (id_eq id) (tareas s) i t ->
  exists (t1 t2 : Tarea) (s1 s2 : Store),
    patch_toggle id s = (s1, json (BTarea t1)) /\
    s1 = {| tareas := <[i := t1]> (tareas s); contadorId := contadorId s |} /\
    t1 !! "completada" = Some (JBool (negb (truthy_u (t !! "completada")))) /\
    (forall k, k <> "completada" -> t1 !! k = t !! k) /\
    patch_toggle id s1 = (s2, json (BTarea t2)) /\
    s2 = {| tareas := <[i := t2]> (tareas s); contadorId := contadorId s |} /\
    t2 !! "completada" = Some (JBool (truthy_u (t !! "completada"))) /\
    (forall k, k <> "completada" -> t2 !! k = t !! k) /\
    (forall b, t !! "completada" = Some (JBool b) -> t2 = t /\ s2 = s).
Proof.
  intros Hpr.
  set (s1 := {| tareas := <[i := alternar t]> (tareas s);
                contadorId := contadorId s |}).
  assert (Hpr1 : primera (id_eq id) (tareas s1) i (alternar t)).
  { apply (primera_insert _ _ _ t); [done|].
    rewrite id_eq_alternar. apply Hpr. }
  exists (alternar t), (alternar (alternar t)), s1,
    {| tareas := <[i := alternar (alternar t)]> (tareas s);
       contadorId := contadorId s |}.
  split; [by apply patch_toggle_primera|]. split; [done|].
  split; [apply lookup_insert_eq|].
  split; [intros k Hk; by apply lookup_insert_ne|].
  split.
  { rewrite (patch_toggle_primera id s1 i (alternar t) Hpr1). simpl.
    by rewrite list_insert_insert_eq. }
  split; [done|].
  assert (Hc2 : alternar (alternar t) !! "completada" =
                Some (JBool (truthy_u (t !! "completada")))).
  { unfold alternar. rewrite !lookup_insert_eq. simpl.
    by rewrite negb_involutive. }
  split; [exact Hc2|].
  split.
  { intros k Hk. unfold alternar. by rewrite !lookup_insert_ne. }
  intros b Hb.
  assert (Ht : alternar (alternar t) = t).
  { apply map_eq. intros k. destruct (decide (k = "completada")) as [->|Hk].
    - rewrite Hc2, Hb. done.
    - unfold alternar. by rewrite !lookup_insert_ne. }
  split; [done|]. rewrite Ht.
  destruct Hpr as (Hl & _). rewrite list_insert_id by done. by destruct s.
Qed.

Lemma patch_toggle_dos_veces_witness :
  let s := inicio (semilla_ejemplo "2024-01-01T00:00:00.000Z") in
  exists s1 r1 r2,
    patch_toggle (NInt 2) s = (s1, r1) /\ patch_toggle (NInt 2) s1 = (s, r2).
Proof.
  intros s.
  assert (Hpr : primera (id_eq (NInt 2)) (tareas s) 1
                  (tarea_ejemplo 2 "Hacer la compra" "Comprar frutas y verduras"
                     "Personal" "media" "2024-01-01T00:00:00.000Z")).
  { split; [reflexivity|]. split; [reflexivity|].
    intros [|j] u Hj Hu; [|lia]. injection Hu as <-. reflexivity. }
  destruct (patch_toggle_dos_veces (NInt 2) s 1 _ Hpr)
    as (t1 & t2 & s1 & s2 & H1 & _ & _ & _ & H2 & _ & _ & _ & Hb).
  destruct (Hb false eq_refl) as [_ ->].
  exists s1, (json (BTarea t1)), (json (BTarea t2)). split; assumption.
Defined.

(** C9 as stated fails after [PUT /api/tareas/3] with the body
    [{"completada": "yes"}]: two toggles leave [completada] at [true], not
    at the original value ["yes"]. *)
Lemma patch_toggle_no_restaura :
  let s := fst (run [PostTareas "2024-01-01T00:00:00.000Z" cuerpo_leche;
                     PutTarea (NInt 3) (<["completada" := JStr "yes"]> ∅)]
                  (inicio [])) in
  let s2 := fst (run [PatchToggle (NInt 3); PatchToggle (NInt 3)] s) in
  (find (id_eq (NInt 3)) (tareas s) ≫= lookup "completada")
    = Some (JStr "yes") /\
  (find (id_eq (NInt 3)) (tareas s2) ≫= lookup "completada")
    = Some (JBool true) /\
  (find (id_eq (NInt 3)) (tareas s2) ≫= lookup "completada") <>
  (find (id_eq (NInt 3)) (tareas s) ≫= lookup "completada").
Proof.
  intros s s2.
  assert (H1 : (find (id_eq (NInt 3)) (tareas s) ≫= lookup "completada")
               = Some (JStr "yes")) by (vm_compute; reflexivity).
  assert (H2 : (find (id_eq (NInt 3)) (tareas s2) ≫= lookup "completada")
               = Some (JBool true)) by (vm_compute; reflexivity).
  rewrite H1, H2. repeat split. discriminate.
Qed.

(** *** Property keys *)

Example numero_texto_ejemplos :
  numero_texto 42 = "42" /\
  numero_texto (-5) = "-5" /\
  numero_texto (2 ^ 53 + 1) = "9007199254740992" /\
  numero_texto (2 ^ 60) = "1152921504606847000" /\
  numero_texto (10 ^ 21 - 2 ^ 17) = "999999999999999900000" /\
  numero_texto (10 ^ 21) = "1e+21" /\
  numero_texto (2 ^ 70) = "1.1805916207174113e+21" /\
  numero_texto (2 ^ 1024 - 2 ^ 970 - 1) = "1.7976931348623157e+308" /\
  numero_texto (2 ^ 1024 - 2 ^ 970) = "Infinity".
Proof. vm_compute. repeat split. Qed.

Example to_string_ejemplos :
  to_string (JArr [JNum (NInt 12); JNull; JStr "x"; JArr [JBool true]])
    = Some "12,,x,true" /\
  to_string (JObj [("valueOf", JNull)]) = Some "[object Object]" /\
  to_string (JObj [("a", JNull); ("toString", JStr "x")]) = None /\
  to_string (JArr [JStr "a"; JObj [("toString", JNull)]]) = None.
Proof. vm_compute. repeat split. Qed.

(** *** Statistics *)

Lemma num_add_comm_acc (a x y : Num) :
  num_add (num_add a x) y = num_add (num_add a y) x.
Proof. destruct a, x, y; simpl; try done. f_equal. lia. Qed.

Lemma suma_insert (m : gmap string Num) (k : string) (v : Num) :
  suma_valores (<[k := v]> m) = num_add (suma_valores (delete k m)) v.
Proof.
  rewrite <- insert_delete_eq. unfold suma_valores.
  rewrite map_fold_insert_L; [done| |apply lookup_delete_eq].
  intros. apply num_add_comm_acc.
Qed.

Lemma suma_delete (m : gmap string Num) (k : string) (x : Num) :
  m !! k = Some x ->
  suma_valores m = num_add (suma_valores (delete k m)) x.
Proof.
  intros H. unfold suma_valores.
  rewrite (map_fold_delete_L _ _ k x m); [done| |done].
  intros. apply num_add_comm_acc.
Qed.

(** The loop, one task at a time. *)
Lemma forEach_snoc (f : gmap string Num -> Tarea -> option (gmap string Num))
    (l : list Tarea) (t : Tarea) (acc : gmap string Num) :
  forEach f (l ++ [t]) acc =
  match forEach f l acc with
  | Some m => f m t
  | None => None
  end.
Proof.
  revert acc. induction l as [|u l IH]; intros acc; simpl.
  - by destruct (f acc t).
  - destruct (f acc u); [apply IH | done].
Qed.

Lemma tabla_snoc_inv (l : list Tarea) (t : Tarea) (m : gmap string Num) :
  forEach contar (l ++ [t]) ∅ = Some m ->
  exists m0 k,
    forEach contar l ∅ = Some m0 /\ clave t = Some k /\ m = contar_clave m0 k.
Proof.
  rewrite forEach_snoc. destruct (forEach contar l ∅) as [m0|]; [|done].
  unfold contar. fold (clave t). destruct (clave t) as [k|]; [|done].
  intros [= <-]. by exists m0, k.
Qed.

(** The loop ends when every category converts to a key. *)
Lemma tabla_existe (l : list Tarea) :
  Forall (fun t => convierte t = true) l ->
  exists m, forEach contar l ∅ = Some m.
Proof.
  induction l as [|t l IH] using rev_ind; intros Hall; [by exists ∅|].
  apply Forall_app in Hall as [Hl Ht]. rewrite Forall_singleton in Ht.
  destruct (IH Hl) as [m0 Hm0]. rewrite forEach_snoc, Hm0.
  unfold contar. unfold convierte, clave in Ht.
  destruct (to_key (t !! "categoria")); [eauto | done].
Qed.

(** The loop throws when some category does not. *)
Lemma tabla_lanza (l : list Tarea) (t : Tarea) (acc : gmap string Num) :
  t ∈ l -> convierte t = false -> forEach contar l acc = None.
Proof.
  intros Hin Ht. revert acc.
  induction l as [|u l IH]; intros acc; [by apply elem_of_nil in Hin|].
  simpl. apply elem_of_cons in Hin as [<-|Hin].
  - unfold contar. unfold convierte, clave in Ht.
    by destruct (to_key (t !! "categoria")).
  - destruct (contar acc u); [by apply IH | done].
Qed.

Lemma heredada_false (k : string) :
  heredada k = false -> is_proto k = false /\ is_method k = false.
Proof. unfold heredada. by intros [? ?]%orb_false_elim. Qed.

Lemma set_prop_lookup_ne (m : gmap string Num) (k k' : string) (v : Num) :
  k <> k' -> set_prop m k v !! k' = m !! k'.
Proof.
  intros Hne. unfold set_prop. destruct (is_proto k); [done|].
  by rewrite lookup_insert_ne.
Qed.

Lemma contar_lookup_ne (m : gmap string Num) (k k' : string) :
  k <> k' -> contar_clave m k !! k' = m !! k'.
Proof.
  intros Hne. unfold contar_clave.
  rewrite set_prop_lookup_ne by done.
  destruct (negb _); [by rewrite set_prop_lookup_ne | done].
Qed.

Lemma get_prop_own (m : gmap string Num) (k : string) (v : Num) :
  m !! k = Some v -> get_prop m k = POwn v.
Proof. unfold get_prop. by intros ->. Qed.

Lemma get_prop_undefined (m : gmap string Num) (k : string) :
  heredada k = false -> m !! k = None -> get_prop m k = PUndefined.
Proof.
  intros [Hp Hm]%heredada_false Hl. unfold get_prop. by rewrite Hl, Hp, Hm.
Qed.

Lemma set_prop_propia (m : gmap string Num) (k : string) (v : Num) :
  heredada k = false -> set_prop m k v = <[k := v]> m.
Proof. intros [Hp _]%heredada_false. unfold set_prop. by rewrite Hp. Qed.

(** On a key that is not inherited, the callback counts. *)
Lemma contar_propia (m : gmap string Num) (k : string) (c : nat) :
  heredada k = false ->
  m !! k = (if (c =? 0)%nat then None else Some (NInt (Z.of_nat c))) ->
  contar_clave m k = <[k := NInt (Z.of_nat (S c))]> m.
Proof.
  intros Hk Hl. unfold contar_clave.
  destruct c as [|c]; simpl Nat.eqb in Hl; cbv iota in Hl.
  - rewrite (get_prop_undefined _ _ Hk Hl). simpl.
    rewrite !set_prop_propia by done.
    rewrite (get_prop_own _ _ (NInt 0)) by apply lookup_insert_eq. simpl.
    by rewrite insert_insert_eq.
  - rewrite (get_prop_own _ _ _ Hl).
    assert (Hz : (Z.of_nat (S c) =? 0)%Z = false) by (apply Z.eqb_neq; lia).
    change (read_truthy (POwn (NInt (Z.of_nat (S c)))))
      with (negb (Z.of_nat (S c) =? 0)%Z).
    rewrite Hz. cbn [negb]. rewrite (get_prop_own _ _ _ Hl).
    cbn [read_number num_succ].
    rewrite set_prop_propia by done. do 2 f_equal. lia.
Qed.

Lemma tiene_clave_eq (t : Tarea) (k : string) :
  clave t = Some k -> tiene_clave k t = true.
Proof. unfold tiene_clave. intros ->. apply String.eqb_refl. Qed.

Lemma tiene_clave_ne (t : Tarea) (k k' : string) :
  clave t = Some k -> k <> k' -> tiene_clave k' t = false.
Proof. unfold tiene_clave. intros -> Hne. by apply String.eqb_neq. Qed.

Lemma cuenta_snoc_ne (k k0 : string) (l : list Tarea) (t : Tarea) :
  clave t = Some k0 -> k0 <> k -> cuenta k (l ++ [t]) = cuenta k l.
Proof.
  intros Ht Hne. unfold cuenta. rewrite List.filter_app. simpl.
  rewrite (tiene_clave_ne _ _ _ Ht Hne). by rewrite app_nil_r.
Qed.

Lemma cuenta_snoc_eq (k : string) (l : list Tarea) (t : Tarea) :
  clave t = Some k ->
  cuenta k (l ++ [t]) =
  Some (NInt (Z.of_nat (S (length (List.filter (tiene_clave k) l))))).
Proof.
  intros Ht. unfold cuenta. rewrite List.filter_app. simpl.
  rewrite (tiene_clave_eq _ _ Ht), length_app. simpl.
  rewrite Nat.add_1_r. done.
Qed.

Lemma tabla_cuenta (l : list Tarea) (m : gmap string Num) (k : string) :
  forEach contar l ∅ = Some m ->
  heredada k = false -> m !! k = cuenta k l.
Proof.
  intros Hm Hk. revert m Hm.
  induction l as [|t l IH] using rev_ind; intros m Hm.
  - injection Hm as <-. done.
  - apply tabla_snoc_inv in Hm as (m0 & k0 & Hm0 & Ht & ->).
    specialize (IH m0 Hm0). destruct (decide (k0 = k)) as [->|Hne].
    + rewrite (contar_propia _ _ _ Hk IH), lookup_insert_eq.
      by rewrite (cuenta_snoc_eq _ _ _ Ht).
    + rewrite contar_lookup_ne by done.
      by rewrite (cuenta_snoc_ne _ _ _ _ Ht Hne).
Qed.

Lemma tabla_suma (l : list Tarea) (m : gmap string Num) :
  forEach contar l ∅ = Some m ->
  Forall (fun t => clave_propia t = true) l ->
  suma_valores m = NInt (Z.of_nat (length l)).
Proof.
  revert m. induction l as [|t l IH] using rev_ind; intros m Hm Hall.
  - injection Hm as <-. done.
  - apply Forall_app in Hall as [Hl Ht]. rewrite Forall_singleton in Ht.
    apply tabla_snoc_inv in Hm as (m0 & k & Hm0 & Hk & ->).
    specialize (IH m0 Hm0 Hl).
    unfold clave_propia in Ht. rewrite Hk in Ht.
    apply negb_true_iff in Ht.
    pose proof (tabla_cuenta l m0 k Hm0 Ht) as Hc. unfold cuenta in Hc.
    rewrite (contar_propia _ _ _ Ht Hc), suma_insert.
    rewrite length_app. simpl.
    set (c := length (List.filter _ l)) in *.
    destruct c as [|c]; simpl in Hc.
    + rewrite delete_id by done. rewrite IH. simpl. f_equal. lia.
    + rewrite (suma_delete m0 _ _ Hc) in IH.
      destruct (suma_valores (delete k m0)) as [x|]; [|done].
      simpl in *. injection IH as IH. f_equal. lia.
Qed.

Lemma filter_particion {A} (p : A -> bool) (l : list A) :
  length l =
  (length (List.filter p l) + length (List.filter (fun x => negb (p x)) l))%nat.
Proof.
  induction l as [|x l IH]; simpl; [done|].
  destruct (p x); simpl; lia.
Qed.

(** What the statistics route does to the store and to the accounting
    of the answers: nothing. *)
Lemma get_estadisticas_lectura (s : Store) :
  fst (get_estadisticas s) = s /\
  es_201 (snd (get_estadisticas s)) = false /\
  es_eliminada (snd (get_estadisticas s)) = false /\
  creada (snd (get_estadisticas s)) = None.
Proof.
  unfold get_estadisticas. by destruct (forEach contar (tareas s) ∅).
Qed.

(** An object with an own [toString] property has no property key. *)
Lemma to_string_objeto (kvs : list (string * JVal)) :
  "toString" ∈ kvs.*1 -> to_string (JObj kvs) = None.
Proof.
  intros Hin. simpl.
  assert (H : tiene_propia "toString" kvs = true); [|by rewrite H].
  unfold tiene_propia. apply existsb_exists.
  apply list_elem_of_fmap in Hin as ([k v] & Hk & Hkv). simpl in Hk. subst k.
  exists ("toString", v). split; [by apply list_elem_of_In | apply String.eqb_refl].
Qed.

(** C7, amended: for every collection state in which the category of
    every task converts to a property key (the conversion throws only
    for an object, or an array holding one, that has an own [toString]
    property), the statistics route answers 200, leaves the store
    unchanged and returns [total], the number of tasks; [completadas],
    the number of tasks whose [completada] is truthy; [pendientes], the
    number whose [completada] is falsy; hence
    [total = completadas + pendientes]; and a table that holds, for every
    key that is not the name of a property inherited from
    [Object.prototype], the number of tasks with that category (and no
    entry when there is none).  When no task has a category whose key is
    such an inherited name, the values of the table sum to [total].  On an
    empty collection it returns zeros and the empty table. *)
Theorem get_estadisticas_cuenta (s : Store) :
  Forall (fun t => convierte t = true) (tareas s) ->
  exists stats : Stats,
    get_estadisticas s = (s, json (BStats stats)) /\
    total stats = length (tareas s) /\
    completadas stats =
      length (List.filter (fun t => truthy_u (t !! "completada")) (tareas s)) /\
    pendientes stats =
      length (List.filter (fun t => negb (truthy_u (t !! "completada")))
                (tareas s)) /\
    total stats = (completadas stats + pendientes stats)%nat /\
    (forall k, heredada k = false ->
               porCategoria stats !! k = cuenta k (tareas s)) /\
    (Forall (fun t => clave_propia t = true) (tareas s) ->
     suma_valores (porCategoria stats) = NInt (Z.of_nat (total stats))) /\
    (tareas s = [] -> stats = mkStats 0 0 0 ∅).
Proof.
  intros Hconv. destruct (tabla_existe _ Hconv) as [m Hm].
  unfold get_estadisticas. rewrite Hm.
  eexists. split; [reflexivity|]. simpl.
  split; [done|]. split; [done|]. split; [done|].
  split; [apply filter_particion|].
  split; [intros k Hk; by apply tabla_cuenta|].
  split; [by apply tabla_suma|].
  intros Hnil. rewrite Hnil in Hm |- *. injection Hm as <-. reflexivity.
Qed.

Lemma get_estadisticas_cuenta_witness :
  let s := inicio (semilla_ejemplo "2024-01-01T00:00:00.000Z") in
  exists stats : Stats,
    get_estadisticas s = (s, json (BStats stats)) /\
    total stats = 2%nat /\ completadas stats = 0%nat /\
    pendientes stats = 2%nat /\
    porCategoria stats !! "Personal" = Some (NInt 1) /\
    suma_valores (porCategoria stats) = NInt 2.
Proof.
  intros s.
  assert (Hconv : Forall (fun t => convierte t = true) (tareas s))
    by (repeat constructor).
  destruct (get_estadisticas_cuenta s Hconv)
    as (stats & Hg & Ht & Hc & Hp & _ & Hk & Hs & _).
  exists stats. split; [exact Hg|].
  split; [rewrite Ht; reflexivity|].
  split; [rewrite Hc; reflexivity|].
  split; [rewrite Hp; reflexivity|].
  split; [rewrite (Hk "Personal" eq_refl); reflexivity|].
  rewrite Hs, Ht; [reflexivity|].
  repeat constructor.
Defined.

(** C7 as stated fails in three ways.  After a task of category
    ["constructor"] is created and its [completada] set to ["yes"] by
    PUT, the route counts one completed task although no task has
    [completada] equal to [true], and the only value of the table is
    [NaN], so that the values do not sum to [total].  After a task whose
    category is the object [{"toString": 1}] is created, the route does
    not return statistics at all: it answers 500. *)
Lemma get_estadisticas_constructor :
  let cuerpo : Obj :=
    <["titulo" := JStr "a"]>
      (<["categoria" := JStr "constructor"]> (<["prioridad" := JStr "alta"]> ∅)) in
  let s := fst (run [PostTareas "2024-01-01T00:00:00.000Z" cuerpo;
                     PutTarea (NInt 3) (<["completada" := JStr "yes"]> ∅)]
                  (inicio [])) in
  let cuerpo' : Obj :=
    <["titulo" := JStr "a"]>
      (<["categoria" := JObj [("toString", JNum (NInt 1))]]>
         (<["prioridad" := JStr "alta"]> ∅)) in
  let s' := fst (run [PostTareas "2024-01-01T00:00:00.000Z" cuerpo']
                   (inicio [])) in
  (exists stats : Stats,
    snd (get_estadisticas s) = json (BStats stats) /\
    total stats = 1%nat /\
    completadas stats = 1%nat /\
    List.filter (fun t => strict_eq (t !! "completada") (Some (JBool true)))
      (tareas s) = [] /\
    porCategoria stats = {[ "constructor" := NaN ]} /\
    suma_valores (porCategoria stats) <> NInt (Z.of_nat (total stats))) /\
  length (tareas s') = 1%nat /\
  snd (get_estadisticas s') = status_json 500 BExcepcion.
Proof.
  intros cuerpo s cuerpo' s'. split; [|split; reflexivity].
  assert (Hm : forEach contar (tareas s) ∅ = Some {[ "constructor" := NaN ]}).
  { vm_compute. reflexivity. }
  unfold get_estadisticas. rewrite Hm.
  eexists. split; [reflexivity|].
  split; [reflexivity|]. split; [reflexivity|]. split; [reflexivity|].
  split; [reflexivity|]. simpl porCategoria.
  unfold suma_valores. rewrite map_fold_singleton. discriminate.
Qed.

(** *** Ids *)

Lemma id_num_eq (t u : Tarea) : t !! "id" = u !! "id" -> id_num t = id_num u.
Proof. unfold id_num. by intros ->. Qed.

Lemma semilla_ok_unicos (c : Z) (l : list Tarea) :
  semilla_ok c l -> ids_unicos l.
Proof.
  intros [Hnd Hall] i j t u Hi Hj Hid.
  rewrite Forall_lookup in Hall.
  destruct (Hall i t Hi) as (n & Hn & _).
  apply (NoDup_lookup (id_num <$> l) i j (Some n)); [done|..].
  - by rewrite list_lookup_fmap, Hi, <- Hn.
  - by rewrite list_lookup_fmap, Hj, <- Hn, (id_num_eq t u Hid).
Qed.

Lemma semilla_ok_insert (c : Z) (l : list Tarea) (i : nat) (t t' : Tarea) :
  l !! i = Some t -> t' !! "id" = t !! "id" ->
  semilla_ok c l -> semilla_ok c (<[i := t']> l).
Proof.
  intros Hl Hid [Hnd Hall]. split.
  - rewrite list_fmap_insert, list_insert_id; [done|].
    by rewrite list_lookup_fmap, Hl, (id_num_eq _ _ Hid).
  - apply Forall_insert; [done|].
    rewrite (id_num_eq _ _ Hid). by apply (Forall_lookup_1 _ _ _ _ Hall Hl).
Qed.

Lemma semilla_ok_delete (c : Z) (l : list Tarea) (i : nat) :
  semilla_ok c l -> semilla_ok c (delete i l).
Proof.
  intros [Hnd Hall]. split.
  - rewrite list_fmap_delete.
    eapply sublist_NoDup; [done | apply sublist_delete].
  - by apply Forall_delete.
Qed.

Lemma semilla_ok_snoc (c : Z) (l : list Tarea) (t : Tarea) :
  id_num t = Some c ->
  semilla_ok c l -> semilla_ok (c + 1) (l ++ [t]).
Proof.
  intros Ht [Hnd Hall]. split.
  - rewrite fmap_app. apply NoDup_app. split; [done|]. split.
    + intros x Hx. simpl. rewrite Ht. rewrite list_elem_of_singleton.
      intros ->. apply list_elem_of_fmap in Hx as (u & Hu & Hin).
      rewrite Forall_forall in Hall. destruct (Hall u Hin) as (n & Hn & Hlt).
      rewrite Hn in Hu. injection Hu as ->. lia.
    + apply NoDup_singleton.
  - apply Forall_app. split.
    + eapply Forall_impl; [done|]. intros u (n & Hn & Hlt).
      exists n. split; [done | lia].
    + apply Forall_singleton. exists c. split; [done | lia].
Qed.

(** The task that POST builds carries the counter as id. *)
Lemma post_tareas_efecto (fecha : string) (cuerpo : Obj) (s : Store) :
  (post_tareas fecha cuerpo s =
     (s, status_json 400
           (BError "Faltan campos requeridos: titulo, categoria, prioridad"))) \/
  exists t : Tarea,
    id_num t = Some (contadorId s) /\
    post_tareas fecha cuerpo s =
      ({| tareas := tareas s ++ [t]; contadorId := (contadorId s + 1)%Z |},
       status_json 201 (BTarea t)).
Proof.
  unfold post_tareas.
  destruct (negb _ || negb _ || negb _); [by left|]. right.
  eexists. split; [|reflexivity].
  unfold id_num. rewrite !lookup_insert_ne by done.
  rewrite !lookup_prop_ne by done. rewrite !lookup_insert_ne by done.
  rewrite lookup_prop_ne by done. by rewrite lookup_insert_eq.
Qed.

(** What one request does to the store and to the list of created ids. *)
Lemma handle_efecto (r : Request) (s : Store) :
  store_ok s ->
  let s' := fst (handle r s) in
  let resp := snd (handle r s) in
  store_ok s' /\
  (es_201 resp = true -> is_Some (creada resp)) /\
  match creada resp with
  | Some n => n = contadorId s /\ contadorId s' = (n + 1)%Z
  | None => contadorId s' = contadorId s
  end.
Proof.
  intros Hok. destruct r as [q|id|fecha cuerpo|id cuerpo|id|id|]; simpl.
  - split; [done|]. split; [done|]. done.
  - unfold get_tarea. destruct (find _ _); simpl; done.
  - destruct (post_tareas_efecto fecha cuerpo s) as [->|(t & Ht & ->)]; simpl.
    + done.
    + unfold creada. simpl. rewrite Ht. split; [|done].
      by apply semilla_ok_snoc.
  - destruct (find (id_eq id) (tareas s)) as [t|] eqn:E.
    + apply find_primera in E as [i Hpr].
      rewrite (put_tarea_primera _ cuerpo _ _ _ Hpr). simpl.
      split; [|done]. destruct Hpr as (Hl & Hp & _).
      eapply semilla_ok_insert; [done| |done].
      rewrite lookup_insert_eq. by apply id_eq_true in Hp as (n & -> & ->).
    + destruct (rutas_sin_tarea id cuerpo s E) as (_ & -> & _). done.
  - destruct (find (id_eq id) (tareas s)) as [t|] eqn:E.
    + apply find_primera in E as [i Hpr].
      rewrite (patch_toggle_primera _ _ _ _ Hpr). simpl.
      split; [|done]. destruct Hpr as (Hl & _).
      eapply semilla_ok_insert; [done|apply alternar_id|done].
    + destruct (rutas_sin_tarea id ∅ s E) as (_ & _ & -> & _). done.
  - destruct (find (id_eq id) (tareas s)) as [t|] eqn:E.
    + apply find_primera in E as [i Hpr].
      rewrite (delete_tarea_primera _ _ _ _ Hpr). simpl.
      split; [|done]. by apply semilla_ok_delete.
    + destruct (rutas_sin_tarea id ∅ s E) as (_ & _ & _ & ->). done.
  - unfold get_estadisticas. by destruct (forEach _ _ _).
Qed.

Lemma run_cons (r : Request) (rs : list Request) (s : Store) :
  run (r :: rs) s =
  (fst (run rs (fst (handle r s))),
   snd (handle r s) :: snd (run rs (fst (handle r s)))).
Proof.
  simpl. destruct (handle r s) as [s1 resp]. simpl.
  by destruct (run rs s1).
Qed.

Lemma run_efecto (rs : list Request) (s : Store) :
  store_ok s ->
  let s' := fst (run rs s) in
  let resps := snd (run rs s) in
  store_ok s' /\
  (contadorId s <= contadorId s')%Z /\
  Forall (fun r => es_201 r = true -> is_Some (creada r)) resps /\
  Forall (fun n => contadorId s <= n < contadorId s')%Z (ids_creadas resps) /\
  StronglySorted Z.lt (ids_creadas resps).
Proof.
  revert s. induction rs as [|r rs IH]; intros s Hok.
  - simpl. split; [done|]. split; [lia|]. repeat split; constructor.
  - rewrite run_cons. cbn [fst snd].
    destruct (handle_efecto r s Hok) as (Hok1 & H201 & Hcr).
    destruct (IH _ Hok1) as (Hok2 & Hle & Hall201 & Hrange & Hsorted).
    split; [done|].
    unfold ids_creadas in *. cbn [omap list_omap].
    destruct (creada (snd (handle r s))) as [n|] eqn:Ecr.
    + destruct Hcr as [-> Hnext]. rewrite Hnext in *.
      split; [lia|]. split; [constructor; [by rewrite Ecr | done]|]. split.
      * constructor; [lia|]. eapply Forall_impl; [done|]. simpl. lia.
      * constructor; [done|]. eapply Forall_impl; [done|]. simpl. lia.
    + rewrite Hcr in *. split; [done|].
      split; [constructor; [by rewrite Ecr | done]|]. done.
Qed.

Lemma StronglySorted_lt_NoDup (l : list Z) : StronglySorted Z.lt l -> NoDup l.
Proof.
  induction 1 as [|x l Hs IH Hall]; constructor; [|done].
  intros Hin. rewrite Forall_forall in Hall. specialize (Hall x Hin). lia.
Qed.

(** C1: from an initial collection whose ids are distinct numbers below
    the initial value 3 of the counter (the empty collection, the sample
    collection), and for every sequence of requests: the ids returned by
    the successful creations are strictly increasing in the order of the
    requests, hence pairwise distinct; every 201 answer carries such an
    id; no created id is the id of an initial task; and in the state
    reached no two tasks of the collection have the same id, whatever
    deletions happened in between. *)
Theorem ids_crecientes_y_unicos (semilla : list Tarea) (rs : list Request) :
  semilla_ok 3 semilla ->
  let s := fst (run rs (inicio semilla)) in
  let resps := snd (run rs (inicio semilla)) in
  StronglySorted Z.lt (ids_creadas resps) /\
  NoDup (ids_creadas resps) /\
  Forall (fun r => es_201 r = true -> is_Some (creada r)) resps /\
  (forall n t, n ∈ ids_creadas resps -> t ∈ semilla -> id_num t <> Some n) /\
  ids_unicos (tareas s) /\
  Forall (fun t => exists n, id_num t = Some n /\ (n < contadorId s)%Z) (tareas s).
Proof.
  intros Hsem s resps.
  destruct (run_efecto rs (inicio semilla) Hsem)
    as (Hok & Hle & H201 & Hrange & Hsorted).
  split; [done|]. split; [by apply StronglySorted_lt_NoDup|].
  split; [done|]. split.
  - intros n t Hn Ht Hid. rewrite Forall_forall in Hrange.
    specialize (Hrange n Hn). simpl in Hrange.
    destruct Hsem as [_ Hall]. rewrite Forall_forall in Hall.
    destruct (Hall t Ht) as (m & Hm & Hlt). rewrite Hm in Hid.
    injection Hid as ->. lia.
  - split; [by eapply semilla_ok_unicos | apply Hok].
Qed.

Lemma ids_crecientes_y_unicos_witness :
  let semilla := semilla_ejemplo "2024-01-01T00:00:00.000Z" in
  let rs := [PostTareas "2024-01-02T00:00:00.000Z" cuerpo_leche;
             DeleteTarea (NInt 3);
             PostTareas "2024-01-03T00:00:00.000Z" cuerpo_leche;
             DeleteTarea (NInt 1);
             PostTareas "2024-01-04T00:00:00.000Z" cuerpo_leche] in
  semilla_ok 3 semilla /\
  ids_creadas (snd (run rs (inicio semilla))) = [3; 4; 5]%Z /\
  StronglySorted Z.lt [3; 4; 5]%Z /\
  ids_unicos (tareas (fst (run rs (inicio semilla)))).
Proof.
  intros semilla rs.
  assert (Hsem : semilla_ok 3 semilla).
  { split.
    - apply (bool_decide_unpack _). vm_compute. reflexivity.
    - repeat constructor; eexists; (split; [reflexivity | lia]). }
  assert (Hids : ids_creadas (snd (run rs (inicio semilla))) = [3; 4; 5]%Z)
    by (vm_compute; reflexivity).
  destruct (ids_crecientes_y_unicos semilla rs Hsem)
    as (Hsorted & _ & _ & _ & Hunicos & _).
  rewrite Hids in Hsorted.
  split; [exact Hsem|]. split; [exact Hids|]. split; [exact Hsorted|].
  exact Hunicos.
Defined.

(** *** The example scenario of the specification

    Create "Buy milk"; toggle it; list with [completada=true] and with
    [completada=false]; delete it; look it up again. *)
Example escenario :
  let rs := [PostTareas "2024-01-01T00:00:00.000Z" cuerpo_leche;
             PatchToggle (NInt 3);
             GetTareas (mkQuery None None (Some (JStr "true")));
             GetTareas (mkQuery None None (Some (JStr "false")));
             DeleteTarea (NInt 3);
             GetTarea (NInt 3)] in
  let resps := snd (run rs (inicio [])) in
  status <$> resps = [201; 200; 200; 200; 200; 404]%Z /\
  (length ∘ tareas_de) <$> resps = [0; 0; 1; 0; 0; 0]%nat /\
  tareas (fst (run rs (inicio []))) = [].
Proof. vm_compute. done. Qed.

(* ================================================================== *)
(** ** Further properties of the routes *)
(* ================================================================== *)

(** *** Which task an id addresses *)

Lemma caso_id (id : Num) (s : Store) :
  find (id_eq id) (tareas s) = None \/
  exists i t, primera (id_eq id) (tareas s) i t.
Proof.
  destruct (find (id_eq id) (tareas s)) as [t|] eqn:E; [right | by left].
  apply find_primera in E as [i Hi]. by exists i, t.
Qed.

Lemma id_eq_put (id : Num) (t : Tarea) (m : Obj) :
  id_eq id t = true -> id_eq id (<["id" := JNum id]> m) = true.
Proof.
  intros (n & -> & _)%id_eq_true. apply id_eq_intro, lookup_insert_eq.
Qed.

Lemma id_eq_distintos (id id' : Num) (t : Tarea) :
  id_eq id t = true -> id' <> id -> id_eq id' t = false.
Proof.
  intros (n & -> & Ht)%id_eq_true Hne.
  destruct (id_eq id' t) eqn:E; [|done].
  apply id_eq_true in E as (m & -> & Hm). congruence.
Qed.

Lemma find_app (p : Tarea -> bool) (l k : list Tarea) :
  find p (l ++ k) =
  match find p l with
  | Some t => Some t
  | None => find p k
  end.
Proof.
  induction l as [|t l IH]; simpl; [done|]. by destruct (p t).
Qed.

Lemma find_delete_ne (p : Tarea -> bool) (l : list Tarea) (i : nat) (t : Tarea) :
  l !! i = Some t -> p t = false -> find p (delete i l) = find p l.
Proof.
  revert i. induction l as [|u l IH]; intros [|i] Hl Hp; simpl in *; try done.
  - injection Hl as ->. by rewrite Hp.
  - destruct (p u); [done|]. by apply IH.
Qed.

(** X1: on one store and one id, the four routes on [/api/tareas/:id]
    agree on whether the task exists: GET, PUT, PATCH toggle and DELETE
    answer with the same status, which is 200 or 404. *)
Theorem rutas_mismo_estado (id : Num) (cuerpo : Obj) (s : Store) :
  let e := status (snd (get_tarea id s)) in
  status (snd (put_tarea id cuerpo s)) = e /\
  status (snd (patch_toggle id s)) = e /\
  status (snd (delete_tarea id s)) = e /\
  (e = 200 \/ e = 404)%Z.
Proof.
  destruct (caso_id id s) as [E | (i & t & Hpr)].
  - destruct (rutas_sin_tarea id cuerpo s E) as (-> & -> & -> & ->).
    simpl. repeat split; by right.
  - rewrite (put_tarea_primera _ cuerpo _ _ _ Hpr),
      (patch_toggle_primera _ _ _ _ Hpr), (delete_tarea_primera _ _ _ _ Hpr).
    unfold get_tarea. destruct (primera_find _ _ _ _ Hpr) as [-> _].
    simpl. repeat split; by left.
Qed.

(** *** Writes and the reads that follow *)

Lemma put_tarea_fijo (id : Num) (cuerpo t : Obj) :
  <["id" := JNum id]> (cuerpo ∪ <["id" := JNum id]> (cuerpo ∪ t)) =
  <["id" := JNum id]> (cuerpo ∪ t).
Proof.
  apply map_eq. intros k. destruct (decide (k = "id")) as [->|Hk].
  - by rewrite !lookup_insert_eq.
  - rewrite !lookup_insert_ne by done. rewrite !lookup_union.
    rewrite lookup_insert_ne by done. rewrite lookup_union.
    by destruct (cuerpo !! k), (t !! k).
Qed.

(** X2: PUT is idempotent: sending the same body to the same id a second
    time leaves the store as the first request left it and gets the same
    answer, whether the id exists or not. *)
Theorem put_tarea_idempotente (id : Num) (cuerpo : Obj) (s : Store) :
  put_tarea id cuerpo (fst (put_tarea id cuerpo s)) = put_tarea id cuerpo s.
Proof.
  destruct (caso_id id s) as [E | (i & t & Hpr)].
  - destruct (rutas_sin_tarea id cuerpo s E) as (_ & Hput & _).
    rewrite Hput. simpl. exact Hput.
  - rewrite (put_tarea_primera _ cuerpo _ _ _ Hpr). cbn [fst].
    set (t' := <["id" := JNum id]> (cuerpo ∪ t)).
    assert (Hpr' : primera (id_eq id)
                     (<[i := t']> (tareas s)) i t').
    { apply (primera_insert _ _ _ t); [done|].
      eapply id_eq_put, Hpr. }
    pose proof (put_tarea_primera id cuerpo
      {| tareas := <[i := t']> (tareas s); contadorId := contadorId s |}
      i t' Hpr') as H2.
    cbn [tareas contadorId] in H2. rewrite H2.
    unfold t'. rewrite put_tarea_fijo. by rewrite list_insert_insert_eq.
Qed.

(** X3: a read after a write sees the write: GET on the id just sent to
    PUT, or to PATCH toggle, returns exactly the answer the write gave
    (the updated task, or the same 404) and changes nothing. *)
Theorem get_tras_escritura (id : Num) (cuerpo : Obj) (s : Store) :
  get_tarea id (fst (put_tarea id cuerpo s)) = put_tarea id cuerpo s /\
  get_tarea id (fst (patch_toggle id s)) = patch_toggle id s.
Proof.
  destruct (caso_id id s) as [E | (i & t & Hpr)].
  - destruct (rutas_sin_tarea id cuerpo s E) as (Hget & -> & -> & _).
    simpl. by split.
  - rewrite (put_tarea_primera _ cuerpo _ _ _ Hpr),
      (patch_toggle_primera _ _ _ _ Hpr). cbn [fst].
    split.
    + unfold get_tarea. cbn [tareas].
      assert (Hpr' : primera (id_eq id)
                (<[i := <["id" := JNum id]> (cuerpo ∪ t)]> (tareas s)) i
                (<["id" := JNum id]> (cuerpo ∪ t))).
      { apply (primera_insert _ _ _ t); [done|]. eapply id_eq_put, Hpr. }
      by destruct (primera_find _ _ _ _ Hpr') as [-> _].
    + unfold get_tarea. cbn [tareas].
      assert (Hpr' : primera (id_eq id)
                (<[i := alternar t]> (tareas s)) i (alternar t)).
      { apply (primera_insert _ _ _ t); [done|].
        rewrite id_eq_alternar. apply Hpr. }
      by destruct (primera_find _ _ _ _ Hpr') as [-> _].
Qed.

(** X4: when no task of the collection carries the current value of the
    counter as id, a creation that answers 201 can be read back: GET on
    the new id returns the created task; and whatever the answer of the
    creation, GET on every other id answers as it did before. *)
Theorem get_tras_post (fecha : string) (cuerpo : Obj) (s : Store) :
  ausente (NInt (contadorId s)) (tareas s) ->
  let s' := fst (post_tareas fecha cuerpo s) in
  let r := snd (post_tareas fecha cuerpo s) in
  (es_201 r = true ->
   get_tarea (NInt (contadorId s)) s' = (s', json (body r))) /\
  (forall id, id <> NInt (contadorId s) ->
              snd (get_tarea id s') = snd (get_tarea id s)).
Proof.
  intros Ha s' r. subst s' r.
  destruct (post_tareas_efecto fecha cuerpo s) as [->|(t & Ht & ->)];
    cbn [fst snd].
  - split; [done | done].
  - assert (Hid : id_eq (NInt (contadorId s)) t = true).
    { apply id_eq_intro. unfold id_num in Ht.
      destruct (t !! "id") as [[| |[n|]| | |]|]; try done. congruence. }
    split.
    + intros _. unfold get_tarea. cbn [tareas body status_json].
      rewrite find_app.
      apply ausente_Forall, find_None_Forall in Ha. rewrite Ha.
      simpl. by rewrite Hid.
    + intros id Hne. unfold get_tarea. cbn [tareas]. rewrite find_app.
      destruct (find (id_eq id) (tareas s)); [done|].
      simpl. by rewrite (id_eq_distintos _ _ _ Hid Hne).
Qed.

Lemma get_tras_post_witness :
  let s := inicio (semilla_ejemplo "2024-01-01T00:00:00.000Z") in
  let s' := fst (post_tareas "2024-01-02T00:00:00.000Z" cuerpo_leche s) in
  let r := snd (post_tareas "2024-01-02T00:00:00.000Z" cuerpo_leche s) in
  get_tarea (NInt 3) s' = (s', json (body r)) /\
  snd (get_tarea (NInt 1) s') = snd (get_tarea (NInt 1) s).
Proof.
  intros s s' r.
  assert (Ha : ausente (NInt (contadorId s)) (tareas s)).
  { intros t Ht. simpl in Ht.
    repeat (apply elem_of_cons in Ht as [-> | Ht]); try (vm_compute; discriminate).
    by apply elem_of_nil in Ht. }
  destruct (get_tras_post "2024-01-02T00:00:00.000Z" cuerpo_leche s Ha)
    as [Hnew Hother].
  split; [apply Hnew; reflexivity | apply Hother; discriminate].
Defined.

Lemma delete_sin_id (id : Num) (l : list Tarea) (i : nat) (t : Tarea) :
  ids_unicos l -> primera (id_eq id) l i t ->
  find (id_eq id) (delete i l) = None.
Proof.
  intros Hu (Hl & Hp & _). apply find_None_Forall, Forall_lookup.
  intros j u Hj. destruct (id_eq id u) eqn:E; [|done].
  apply id_eq_true in Hp as (n & -> & Ht).
  apply id_eq_true in E as (m & [= <-] & Hm).
  assert (Hid : u !! "id" = t !! "id") by congruence.
  destruct (decide (j < i)%nat) as [Hlt|Hge].
  - rewrite list_lookup_delete_lt in Hj by done.
    pose proof (Hu j i u t Hj Hl Hid). lia.
  - rewrite list_lookup_delete_ge in Hj by lia.
    pose proof (Hu (S j) i u t Hj Hl Hid). lia.
Qed.

(** X5: when the ids of the collection are pairwise distinct, a deleted
    task is gone: after DELETE on an id, whatever it answered, GET, PUT,
    PATCH toggle and a second DELETE on that id all answer 404 and change
    nothing; and GET on every other id answers as it did before. *)
Theorem rutas_tras_delete (id : Num) (cuerpo : Obj) (s : Store) :
  ids_unicos (tareas s) ->
  let s' := fst (delete_tarea id s) in
  get_tarea id s' = (s', status_json 404 (BError "Tarea no encontrada")) /\
  put_tarea id cuerpo s' = (s', status_json 404 (BError "Tarea no encontrada")) /\
  patch_toggle id s' = (s', status_json 404 (BError "Tarea no encontrada")) /\
  delete_tarea id s' = (s', status_json 404 (BError "Tarea no encontrada")) /\
  (forall id', id' <> id -> snd (get_tarea id' s') = snd (get_tarea id' s)).
Proof.
  intros Hu s'. subst s'.
  destruct (caso_id id s) as [E | (i & t & Hpr)].
  - destruct (rutas_sin_tarea id cuerpo s E) as (_ & _ & _ & ->). cbn [fst].
    destruct (rutas_sin_tarea id cuerpo s E) as (Hg & Hp & Ht & Hd).
    repeat split; done.
  - rewrite (delete_tarea_primera _ _ _ _ Hpr). cbn [fst].
    pose proof (delete_sin_id _ _ _ _ Hu Hpr) as E.
    destruct (rutas_sin_tarea id cuerpo
                {| tareas := delete i (tareas s); contadorId := contadorId s |} E)
      as (Hg & Hp & Ht & Hd).
    repeat split; try done.
    intros id' Hne. unfold get_tarea. cbn [tareas].
    destruct Hpr as (Hl & Hp' & _).
    rewrite (find_delete_ne _ _ _ _ Hl (id_eq_distintos _ _ _ Hp' Hne)).
    by destruct (find (id_eq id') (tareas s)).
Qed.

Lemma rutas_tras_delete_witness :
  let s := inicio (semilla_ejemplo "2024-01-01T00:00:00.000Z") in
  let s' := fst (delete_tarea (NInt 1) s) in
  get_tarea (NInt 1) s' = (s', status_json 404 (BError "Tarea no encontrada")) /\
  snd (get_tarea (NInt 2) s') = snd (get_tarea (NInt 2) s).
Proof.
  intros s s'.
  assert (Hu : ids_unicos (tareas s)).
  { apply (semilla_ok_unicos 3). split.
    - apply (bool_decide_unpack _). vm_compute. reflexivity.
    - repeat constructor; eexists; (split; [reflexivity | lia]). }
  destruct (rutas_tras_delete (NInt 1) ∅ s Hu) as (Hg & _ & _ & _ & Hother).
  split; [exact Hg | apply Hother; discriminate].
Defined.

(** *** What the writes keep *)

Lemma ids_insert (l : list Tarea) (i : nat) (t t' : Tarea) :
  l !! i = Some t -> t' !! "id" = t !! "id" ->
  lookup "id" <$> <[i := t']> l = lookup "id" <$> l.
Proof.
  intros Hl Hid. rewrite list_fmap_insert, list_insert_id; [done|].
  by rewrite list_lookup_fmap, Hl, Hid.
Qed.

Lemma put_conserva_id (id : Num) (cuerpo t : Obj) :
  id_eq id t = true -> (<["id" := JNum id]> (cuerpo ∪ t)) !! "id" = t !! "id".
Proof.
  intros (n & -> & ->)%id_eq_true. apply lookup_insert_eq.
Qed.

(** X6: the id of a task is immutable and the order of the collection
    is fixed: whatever the id and the body, PUT and PATCH toggle leave the
    sequence of the ids of the collection exactly as it was, and the
    counter too. *)
Theorem escrituras_conservan_ids (id : Num) (cuerpo : Obj) (s : Store) :
  lookup "id" <$> tareas (fst (put_tarea id cuerpo s)) =
    lookup "id" <$> tareas s /\
  lookup "id" <$> tareas (fst (patch_toggle id s)) =
    lookup "id" <$> tareas s /\
  contadorId (fst (put_tarea id cuerpo s)) = contadorId s /\
  contadorId (fst (patch_toggle id s)) = contadorId s.
Proof.
  destruct (caso_id id s) as [E | (i & t & Hpr)].
  - destruct (rutas_sin_tarea id cuerpo s E) as (_ & -> & -> & _). done.
  - rewrite (put_tarea_primera _ cuerpo _ _ _ Hpr),
      (patch_toggle_primera _ _ _ _ Hpr). cbn [fst tareas contadorId].
    destruct Hpr as (Hl & Hp & _).
    rewrite (ids_insert _ _ t) by (done || by apply put_conserva_id).
    rewrite (ids_insert _ _ t) by (done || apply alternar_id).
    done.
Qed.

(** *** The size of the collection *)

Lemma assign_found_length (p : Tarea -> bool) (f : Tarea -> Tarea)
    (l : list Tarea) :
  length (assign_found p f l) = length l.
Proof.
  induction l as [|t l IH]; simpl; [done|].
  destruct (p t); simpl; by rewrite ?IH.
Qed.

Lemma handle_tamano (r : Request) (s : Store) :
  (length (tareas (fst (handle r s)))
   + (if es_eliminada (snd (handle r s)) then 1 else 0) =
   length (tareas s) + (if es_201 (snd (handle r s)) then 1 else 0))%nat.
Proof.
  destruct r as [q|id|fecha cuerpo|id cuerpo|id|id|]; simpl.
  - lia.
  - unfold get_tarea. destruct (find _ _); simpl; lia.
  - destruct (post_tareas_efecto fecha cuerpo s) as [->|(t & Ht & ->)]; simpl.
    + lia.
    + rewrite length_app. simpl. lia.
  - destruct (caso_id id s) as [E | (i & t & Hpr)].
    + destruct (rutas_sin_tarea id cuerpo s E) as (_ & -> & _). simpl. lia.
    + rewrite (put_tarea_primera _ cuerpo _ _ _ Hpr). simpl.
      rewrite length_insert. lia.
  - destruct (caso_id id s) as [E | (i & t & Hpr)].
    + destruct (rutas_sin_tarea id ∅ s E) as (_ & _ & -> & _). simpl. lia.
    + rewrite (patch_toggle_primera _ _ _ _ Hpr). simpl.
      rewrite length_insert. lia.
  - destruct (caso_id id s) as [E | (i & t & Hpr)].
    + destruct (rutas_sin_tarea id ∅ s E) as (_ & _ & _ & ->). simpl. lia.
    + rewrite (delete_tarea_primera _ _ _ _ Hpr). simpl.
      pose proof (primera_lt _ _ _ _ Hpr) as Hlt.
      destruct Hpr as (Hl & _).
      rewrite length_delete by eauto. lia.
  - unfold get_estadisticas. destruct (forEach _ _ _); simpl; lia.
Qed.

(** What one request does to the counter, and the id a 201 answer
    carries, from any store. *)
Lemma handle_contador (r : Request) (s : Store) :
  contadorId (fst (handle r s)) =
    (contadorId s + if es_201 (snd (handle r s)) then 1 else 0)%Z /\
  creada (snd (handle r s)) =
    (if es_201 (snd (handle r s)) then Some (contadorId s) else None).
Proof.
  destruct r as [q|id|fecha cuerpo|id cuerpo|id|id|]; simpl.
  - split; [lia | done].
  - unfold get_tarea. destruct (find _ _); simpl; (split; [lia | done]).
  - destruct (post_tareas_efecto fecha cuerpo s) as [->|(t & Ht & ->)];
      simpl; (split; [lia|]); [done|].
    unfold creada. simpl. done.
  - unfold put_tarea. destruct (_ =? _)%Z; simpl; (split; [lia | done]).
  - unfold patch_toggle. destruct (find _ _); simpl; (split; [lia | done]).
  - unfold delete_tarea. destruct (_ =? _)%Z; simpl; (split; [lia | done]).
  - unfold get_estadisticas.
    destruct (forEach _ _ _); simpl; (split; [lia | done]).
Qed.

(** X7: the size of the collection is accounted for by the answers: after
    any sequence of requests, from any store, the number of tasks plus the
    number of successful deletions equals the initial number of tasks plus
    the number of 201 answers; and the counter has grown by the number of
    201 answers. *)
Theorem run_tamano (rs : list Request) (s : Store) :
  let s' := fst (run rs s) in
  let resps := snd (run rs s) in
  (length (tareas s') + cuantas es_eliminada resps =
   length (tareas s) + cuantas es_201 resps)%nat /\
  contadorId s' = (contadorId s + Z.of_nat (cuantas es_201 resps))%Z.
Proof.
  revert s. induction rs as [|r rs IH]; intros s; cbv zeta.
  - unfold cuantas. simpl. split; lia.
  - rewrite run_cons. cbn [fst snd].
    destruct (IH (fst (handle r s))) as [IHl IHc].
    pose proof (handle_tamano r s) as Hl.
    pose proof (handle_contador r s) as [Hc _].
    unfold cuantas in *. cbn [List.filter].
    destruct (es_eliminada (snd (handle r s))),
      (es_201 (snd (handle r s))); cbn [length]; split; lia.
Qed.

(** *** The order of the collection *)

Lemma ssorted_snoc (ns : list Z) (c : Z) :
  StronglySorted Z.lt ns -> Forall (fun n => (n < c)%Z) ns ->
  StronglySorted Z.lt (ns ++ [c]).
Proof.
  induction 1 as [|n ns Hs IH Hall]; intros Hc; simpl.
  - repeat constructor.
  - apply Forall_cons in Hc as [Hn Hc]. constructor; [by apply IH|].
    apply Forall_app. split; [done|]. by apply Forall_singleton.
Qed.

Lemma ssorted_delete (ns : list Z) (i : nat) :
  StronglySorted Z.lt ns -> StronglySorted Z.lt (delete i ns).
Proof.
  intros Hs. revert i. induction Hs as [|n ns Hs IH Hall]; intros [|i]; simpl.
  - constructor.
  - constructor.
  - done.
  - constructor; [apply IH | by apply Forall_delete].
Qed.

Lemma ordenada_insert (c : Z) (l : list Tarea) (i : nat) (t t' : Tarea) :
  l !! i = Some t -> t' !! "id" = t !! "id" ->
  ordenada c l -> ordenada c (<[i := t']> l).
Proof.
  intros Hl Hid (ns & Hns & Hs & Hc). exists ns. split; [|done].
  rewrite list_fmap_insert, list_insert_id; [done|].
  by rewrite list_lookup_fmap, Hl, (id_num_eq _ _ Hid).
Qed.

Lemma handle_ordenada (r : Request) (s : Store) :
  ordenada (contadorId s) (tareas s) ->
  ordenada (contadorId (fst (handle r s))) (tareas (fst (handle r s))).
Proof.
  intros Hord. destruct r as [q|id|fecha cuerpo|id cuerpo|id|id|]; simpl.
  - done.
  - unfold get_tarea. by destruct (find _ _).
  - destruct (post_tareas_efecto fecha cuerpo s) as [->|(t & Ht & ->)]; simpl.
    + done.
    + destruct Hord as (ns & Hns & Hs & Hc).
      exists (ns ++ [contadorId s]). split.
      { rewrite !fmap_app, Hns. simpl. by rewrite Ht. }
      split; [by apply ssorted_snoc|].
      apply Forall_app. split.
      * eapply Forall_impl; [done|]. simpl. lia.
      * apply Forall_singleton. lia.
  - destruct (caso_id id s) as [E | (i & t & Hpr)].
    + by destruct (rutas_sin_tarea id cuerpo s E) as (_ & -> & _).
    + rewrite (put_tarea_primera _ cuerpo _ _ _ Hpr). simpl.
      destruct Hpr as (Hl & Hp & _).
      eapply ordenada_insert; [done| |done]. by apply put_conserva_id.
  - destruct (caso_id id s) as [E | (i & t & Hpr)].
    + by destruct (rutas_sin_tarea id ∅ s E) as (_ & _ & -> & _).
    + rewrite (patch_toggle_primera _ _ _ _ Hpr). simpl.
      destruct Hpr as (Hl & _).
      eapply ordenada_insert; [done|apply alternar_id|done].
  - destruct (caso_id id s) as [E | (i & t & Hpr)].
    + by destruct (rutas_sin_tarea id ∅ s E) as (_ & _ & _ & ->).
    + rewrite (delete_tarea_primera _ _ _ _ Hpr). simpl.
      destruct Hord as (ns & Hns & Hs & Hc). exists (delete i ns).
      split; [by rewrite !list_fmap_delete, Hns|].
      split; [by apply ssorted_delete | by apply Forall_delete].
  - unfold get_estadisticas. by destruct (forEach _ _ _).
Qed.

(** X8: the collection stays sorted by id: from an initial collection
    whose ids, in order, are increasing numbers below 3, every sequence of
    requests leads to a collection whose ids, in order, are increasing
    numbers below the counter, so that a listing returns the tasks in
    order of creation. *)
Theorem run_ordenada (semilla : list Tarea) (rs : list Request) :
  ordenada 3 semilla ->
  let s := fst (run rs (inicio semilla)) in
  ordenada (contadorId s) (tareas s).
Proof.
  intros Hsem. cbv zeta.
  change (ordenada (contadorId (inicio semilla)) (tareas (inicio semilla)))
    in Hsem.
  revert Hsem. generalize (inicio semilla). clear semilla.
  induction rs as [|r rs IH]; intros s Hord; [done|].
  rewrite run_cons. cbn [fst]. by apply IH, handle_ordenada.
Qed.

Lemma run_ordenada_witness :
  let rs := [PostTareas "2024-01-02T00:00:00.000Z" cuerpo_leche;
             DeleteTarea (NInt 1);
             PutTarea (NInt 2) (<["id" := JNum (NInt 0)]> ∅);
             PostTareas "2024-01-03T00:00:00.000Z" cuerpo_leche] in
  let s := fst (run rs (inicio (semilla_ejemplo "2024-01-01T00:00:00.000Z"))) in
  ordenada 5 (tareas s) /\ id_num <$> tareas s = [Some 2; Some 3; Some 4]%Z.
Proof.
  intros rs s.
  assert (Hsem : ordenada 3 (semilla_ejemplo "2024-01-01T00:00:00.000Z")).
  { exists [1; 2]%Z. split; [reflexivity|].
    split; repeat constructor; lia. }
  split.
  - exact (run_ordenada _ rs Hsem).
  - vm_compute. reflexivity.
Defined.

(** *** The statistics table on inherited keys *)

Lemma contar_proto (m : gmap string Num) (k : string) :
  is_proto k = true -> contar_clave m k = m.
Proof.
  intros Hp. unfold contar_clave, set_prop. rewrite Hp.
  by destruct (negb _).
Qed.

Lemma get_prop_metodo (m : gmap string Num) (k : string) :
  is_proto k = false -> is_method k = true -> m !! k = None ->
  get_prop m k = PMethod.
Proof. intros Hp Hm Hl. unfold get_prop. by rewrite Hl, Hp, Hm. Qed.

Lemma set_prop_no_proto (m : gmap string Num) (k : string) (v : Num) :
  is_proto k = false -> set_prop m k v = <[k := v]> m.
Proof. intros Hp. unfold set_prop. by rewrite Hp. Qed.

(** The callback on the name of an inherited method. *)
Lemma contar_metodo (m : gmap string Num) (k : string) :
  is_proto k = false -> is_method k = true ->
  contar_clave m k =
  <[k :=
      match m !! k with
      | None => NaN
      | Some NaN => NInt 1
      | Some (NInt n) => if (n =? 0)%Z then NInt 1 else NInt (n + 1)
      end]> m.
Proof.
  intros Hp Hm. unfold contar_clave.
  destruct (m !! k) as [[n|]|] eqn:Hl.
  - rewrite (get_prop_own _ _ _ Hl).
    change (read_truthy (POwn (NInt n))) with (negb (n =? 0)%Z).
    destruct (n =? 0)%Z eqn:Hn; cbn [negb].
    + rewrite !set_prop_no_proto by done.
      rewrite (get_prop_own _ _ (NInt 0)) by apply lookup_insert_eq.
      cbn [read_number num_succ]. by rewrite insert_insert_eq.
    + rewrite (get_prop_own _ _ _ Hl). cbn [read_number num_succ].
      by rewrite set_prop_no_proto.
  - rewrite (get_prop_own _ _ _ Hl). cbn [read_truthy negb].
    rewrite !set_prop_no_proto by done.
    rewrite (get_prop_own _ _ (NInt 0)) by apply lookup_insert_eq.
    cbn [read_number num_succ]. by rewrite insert_insert_eq.
  - rewrite (get_prop_metodo _ _ Hp Hm Hl). cbn [read_truthy negb].
    rewrite (get_prop_metodo _ _ Hp Hm Hl). cbn [read_number num_succ].
    by rewrite set_prop_no_proto.
Qed.

Lemma veces_snoc (k : string) (l : list Tarea) (t : Tarea) :
  veces k (l ++ [t]) = (veces k l + if tiene_clave k t then 1 else 0)%nat.
Proof.
  unfold veces. rewrite List.filter_app, length_app. simpl.
  by destruct (tiene_clave k t).
Qed.

Lemma tabla_proto (l : list Tarea) (m : gmap string Num) (k : string) :
  forEach contar l ∅ = Some m -> is_proto k = true -> m !! k = None.
Proof.
  intros Hm Hp. revert m Hm.
  induction l as [|t l IH] using rev_ind; intros m Hm.
  - injection Hm as <-. done.
  - apply tabla_snoc_inv in Hm as (m0 & k0 & Hm0 & Ht & ->).
    destruct (decide (k0 = k)) as [->|Hne].
    + rewrite contar_proto by done. by apply IH.
    + rewrite contar_lookup_ne by done. by apply IH.
Qed.

Lemma tabla_metodo (l : list Tarea) (m : gmap string Num) (k : string) :
  forEach contar l ∅ = Some m ->
  is_proto k = false -> is_method k = true ->
  m !! k =
  match veces k l with
  | O => None
  | S O => Some NaN
  | S (S n) => Some (NInt (Z.of_nat (S n)))
  end.
Proof.
  intros Hm Hp Hmet. revert m Hm.
  induction l as [|t l IH] using rev_ind; intros m Hm.
  - injection Hm as <-. done.
  - apply tabla_snoc_inv in Hm as (m0 & k0 & Hm0 & Ht & ->).
    specialize (IH m0 Hm0). rewrite veces_snoc.
    destruct (decide (k0 = k)) as [->|Hne].
    + rewrite (tiene_clave_eq _ _ Ht).
      rewrite (contar_metodo _ _ Hp Hmet), lookup_insert_eq, IH.
      destruct (veces k l) as [|[|n]]; simpl; [done..|].
      destruct (Z.eqb_spec (Z.pos (Pos.of_succ_nat n)) 0) as [?|_]; [lia|].
      rewrite Nat.add_1_r. do 2 f_equal. lia.
    + rewrite (tiene_clave_ne _ _ _ Ht Hne).
      rewrite contar_lookup_ne by done. by rewrite Nat.add_0_r.
Qed.

(** X9: the statistics table, key by key, for every collection in which
    the category of every task converts to a property key: an ordinary
    key holds the number of tasks of that category (no entry for none);
    the key [__proto__] never gets an entry, whatever the number of tasks
    of that category; and the name of a method inherited from
    [Object.prototype] (such as [constructor] or [toString]) holds [NaN]
    when one task has that category and one less than the number of such
    tasks when there are two or more. *)
Theorem get_estadisticas_tabla (s : Store) (k : string) :
  Forall (fun t => convierte t = true) (tareas s) ->
  exists stats : Stats,
    get_estadisticas s = (s, json (BStats stats)) /\
    porCategoria stats !! k = entrada k (tareas s).
Proof.
  intros Hconv. destruct (tabla_existe _ Hconv) as [m Hm].
  unfold get_estadisticas. rewrite Hm.
  eexists. split; [reflexivity|]. cbn [porCategoria]. unfold entrada.
  destruct (is_proto k) eqn:Hp; [by eapply tabla_proto|].
  destruct (is_method k) eqn:Hmet; [by apply tabla_metodo|].
  apply tabla_cuenta; [done|]. unfold heredada. by rewrite Hp, Hmet.
Qed.

Lemma get_estadisticas_tabla_witness :
  let cuerpo : Obj :=
    <["titulo" := JStr "a"]>
      (<["categoria" := JStr "toString"]> (<["prioridad" := JStr "alta"]> ∅)) in
  let s := fst (run [PostTareas "2024-01-02T00:00:00.000Z" cuerpo;
                     PostTareas "2024-01-03T00:00:00.000Z" cuerpo;
                     PostTareas "2024-01-04T00:00:00.000Z" cuerpo]
                  (inicio (semilla_ejemplo "2024-01-01T00:00:00.000Z"))) in
  exists stats : Stats,
    get_estadisticas s = (s, json (BStats stats)) /\
    total stats = 5%nat /\
    porCategoria stats !! "toString" = Some (NInt 2).
Proof.
  intros cuerpo s.
  assert (Hconv : Forall (fun t => convierte t = true) (tareas s)).
  { vm_compute tareas. repeat constructor. }
  destruct (get_estadisticas_tabla s "toString" Hconv) as (stats & Hg & Hk).
  exists stats. split; [exact Hg|]. split.
  - unfold get_estadisticas in Hg.
    destruct (forEach contar (tareas s) ∅); [|discriminate].
    injection Hg as <-. reflexivity.
  - rewrite Hk. reflexivity.
Defined.

(** *** A category without a property key *)

(** X14: a category can stop the statistics.  POST accepts an object as
    category as long as it is truthy, which every object is; when that
    object has an own [toString] property its conversion to a property
    key throws, so that from then on, while the task is in the collection
    with that category, the statistics route answers 500 (and changes
    nothing). *)
Theorem get_estadisticas_excepcion (s : Store) (t : Tarea)
    (kvs : list (string * JVal)) :
  t ∈ tareas s ->
  t !! "categoria" = Some (JObj kvs) ->
  "toString" ∈ kvs.*1 ->
  get_estadisticas s = (s, status_json 500 BExcepcion) /\
  forall fecha cuerpo s0,
    truthy_u (cuerpo !! "titulo") = true ->
    truthy_u (cuerpo !! "prioridad") = true ->
    cuerpo !! "categoria" = Some (JObj kvs) ->
    status (snd (post_tareas fecha cuerpo s0)) = 201%Z /\
    get_estadisticas (fst (post_tareas fecha cuerpo s0)) =
      (fst (post_tareas fecha cuerpo s0), status_json 500 BExcepcion).
Proof.
  intros Hin Hcat Hkey.
  assert (Hlanza : forall (u : Tarea) (s1 : Store),
            u ∈ tareas s1 -> u !! "categoria" = Some (JObj kvs) ->
            get_estadisticas s1 = (s1, status_json 500 BExcepcion)).
  { intros u s1 Hu Hc. unfold get_estadisticas.
    rewrite (tabla_lanza _ u); [done|done|].
    unfold convierte, clave, to_key. rewrite Hc.
    by rewrite (to_string_objeto _ Hkey). }
  split; [by apply (Hlanza t)|].
  intros fecha cuerpo s0 Ht Hp Hc.
  unfold post_tareas. rewrite Ht, Hp, Hc. simpl.
  split; [done|].
  eapply Hlanza.
  - cbn [tareas]. apply elem_of_app. right. apply list_elem_of_singleton.
    reflexivity.
  - rewrite lookup_insert_ne by done. rewrite lookup_insert_ne by done.
    rewrite lookup_prop_ne by done. apply lookup_insert_eq.
Qed.

Lemma get_estadisticas_excepcion_witness :
  let cuerpo : Obj :=
    <["titulo" := JStr "a"]>
      (<["categoria" := JObj [("toString", JNum (NInt 1))]]>
         (<["prioridad" := JStr "alta"]> ∅)) in
  let s := fst (post_tareas "2024-01-01T00:00:00.000Z" cuerpo (inicio [])) in
  length (tareas s) = 1%nat /\
  get_estadisticas s = (s, status_json 500 BExcepcion).
Proof.
  intros cuerpo s. split; [reflexivity|].
  destruct (tareas s) as [|t l] eqn:Hl; [discriminate|].
  assert (Hin : t ∈ tareas s) by (rewrite Hl; apply elem_of_cons; by left).
  assert (Hcat : t !! "categoria" = Some (JObj [("toString", JNum (NInt 1))])).
  { vm_compute in Hl. injection Hl as <- _. reflexivity. }
  refine (proj1 (get_estadisticas_excepcion s t _ Hin Hcat _)).
  apply list_elem_of_singleton. reflexivity.
Defined.

(** *** Statistics and listings *)

Lemma filter_length_le {A} (p q : A -> bool) (l : list A) :
  (forall x, p x = true -> q x = true) ->
  (length (List.filter p l) <= length (List.filter q l))%nat.
Proof.
  intros H. induction l as [|x l IH]; simpl; [done|].
  destruct (p x) eqn:E.
  - rewrite (H x E). simpl. lia.
  - destruct (q x); simpl; lia.
Qed.

Lemma filter_ext_Forall {A} (p q : A -> bool) (l : list A) :
  Forall (fun x => p x = q x) l -> List.filter p l = List.filter q l.
Proof.
  induction 1 as [|x l Hx Hl IH]; simpl; [done|]. by rewrite Hx, IH.
Qed.

(** X10: when the category of every task converts to a property key, so
    that the statistics route answers, the statistics never count fewer
    tasks than the listings show: [completadas] is at least the number of
    tasks listed with [completada=true] and [pendientes] at least the
    number listed with [completada=false]; when the [completada] of every
    task is a boolean the numbers are equal. *)
Theorem estadisticas_y_listado (s : Store) :
  Forall (fun t => convierte t = true) (tareas s) ->
  let si := tareas_de (snd (get_tareas
              (mkQuery None None (Some (JStr "true"))) s)) in
  let no := tareas_de (snd (get_tareas
              (mkQuery None None (Some (JStr "false"))) s)) in
  exists stats : Stats,
    snd (get_estadisticas s) = json (BStats stats) /\
    (length si <= completadas stats)%nat /\
    (length no <= pendientes stats)%nat /\
    (Forall booleana (tareas s) ->
     length si = completadas stats /\ length no = pendientes stats).
Proof.
  intros Hconv si no. destruct (tabla_existe _ Hconv) as [m Hm].
  unfold get_estadisticas. rewrite Hm.
  eexists. split; [reflexivity|].
  subst si no. cbn [completadas pendientes]. unfold get_tareas.
  cbn [categoria prioridad completada truthy_u snd tareas_de body json].
  change (strict_eq (Some (JStr "true")) (Some (JStr "true"))) with true.
  change (strict_eq (Some (JStr "false")) (Some (JStr "true"))) with false.
  split.
  { apply filter_length_le. intros t.
    destruct (t !! "completada") as [[|[|]|[|]| | |]|]; simpl; done. }
  split.
  { apply filter_length_le. intros t.
    destruct (t !! "completada") as [[|[|]|[|]| | |]|]; simpl; done. }
  intros Hb. split; f_equal; apply filter_ext_Forall;
    (eapply Forall_impl; [exact Hb|]); intros t; unfold booleana;
    destruct (t !! "completada") as [[|[|]|[|]| | |]|]; simpl; done.
Qed.

Lemma estadisticas_y_listado_witness :
  let s := fst (run [PostTareas "2024-01-02T00:00:00.000Z" cuerpo_leche;
                     PatchToggle (NInt 3)]
                  (inicio (semilla_ejemplo "2024-01-01T00:00:00.000Z"))) in
  exists stats : Stats,
    snd (get_estadisticas s) = json (BStats stats) /\
    completadas stats = 1%nat /\ pendientes stats = 2%nat /\
    length (tareas_de (snd (get_tareas
              (mkQuery None None (Some (JStr "true"))) s))) = 1%nat /\
    length (tareas_de (snd (get_tareas
              (mkQuery None None (Some (JStr "false"))) s))) = 2%nat.
Proof.
  intros s.
  assert (Hconv : Forall (fun t => convierte t = true) (tareas s)).
  { vm_compute tareas. repeat constructor. }
  destruct (estadisticas_y_listado s Hconv) as (stats & Hs & _ & _ & Heq).
  assert (Hb : Forall booleana (tareas s)).
  { vm_compute tareas. repeat constructor. }
  destruct (Heq Hb) as [H1 H2].
  exists stats. split; [exact Hs|].
  rewrite <- H1, <- H2.
  split; [reflexivity|]. split; [reflexivity|]. split; reflexivity.
Defined.

(** X11: statistics and listings agree per category: when the
    [categoria] of every task is a string, and [c] is a non-empty string
    that is not the name of a property inherited from [Object.prototype],
    the entry of the table for [c] is the number of tasks that the
    listing with [categoria=c] returns (and there is no entry when the
    listing is empty). *)
Theorem tabla_y_listado (s : Store) (c : string) :
  Forall categoria_texto (tareas s) ->
  c <> "" -> heredada c = false ->
  let n := length (tareas_de (snd (get_tareas
             (mkQuery (Some (JStr c)) None None) s))) in
  exists stats : Stats,
    snd (get_estadisticas s) = json (BStats stats) /\
    porCategoria stats !! c =
      (if (n =? 0)%nat then None else Some (NInt (Z.of_nat n))).
Proof.
  intros Htxt Hc Hh n.
  assert (Hconv : Forall (fun t => convierte t = true) (tareas s)).
  { eapply Forall_impl; [exact Htxt|]. intros t [x Hx].
    unfold convierte, clave. by rewrite Hx. }
  destruct (tabla_existe _ Hconv) as [m Hm].
  unfold get_estadisticas. rewrite Hm.
  eexists. split; [reflexivity|].
  cbn [porCategoria]. rewrite (tabla_cuenta _ _ _ Hm Hh). unfold cuenta.
  assert (Hn : n = length (List.filter (tiene_clave c) (tareas s))).
  { subst n. unfold get_tareas.
    cbn [categoria prioridad completada snd tareas_de body json truthy_u truthy].
    destruct (String.eqb_spec c "") as [?|_]; [done|]. cbn [negb].
    f_equal. apply filter_ext_Forall.
    eapply Forall_impl; [exact Htxt|]. intros t [x Hx].
    unfold tiene_clave, clave. rewrite Hx. reflexivity. }
  by rewrite <- Hn.
Qed.

Lemma tabla_y_listado_witness :
  let s := inicio (semilla_ejemplo "2024-01-01T00:00:00.000Z") in
  exists stats : Stats,
    snd (get_estadisticas s) = json (BStats stats) /\
    porCategoria stats !! "Personal" = Some (NInt 1) /\
    length (tareas_de (snd (get_tareas
              (mkQuery (Some (JStr "Personal")) None None) s))) = 1%nat.
Proof.
  intros s.
  assert (Htxt : Forall categoria_texto (tareas s)).
  { repeat constructor; eexists; reflexivity. }
  destruct (tabla_y_listado s "Personal" Htxt) as (stats & Hs & Hk);
    [discriminate | reflexivity |].
  exists stats. split; [exact Hs|]. split; [exact Hk | reflexivity].
Defined.

(** *** Boolean completion flags *)

Lemma post_tareas_nueva (fecha : string) (cuerpo : Obj) (s : Store) :
  (post_tareas fecha cuerpo s =
     (s, status_json 400
           (BError "Faltan campos requeridos: titulo, categoria, prioridad"))) \/
  exists t : Tarea,
    t !! "completada" = Some (JBool false) /\
    post_tareas fecha cuerpo s =
      ({| tareas := tareas s ++ [t]; contadorId := (contadorId s + 1)%Z |},
       status_json 201 (BTarea t)).
Proof.
  unfold post_tareas.
  destruct (negb _ || negb _ || negb _); [by left|]. right.
  eexists. split; [|reflexivity].
  rewrite lookup_insert_ne by done. by rewrite lookup_insert_eq.
Qed.

Lemma handle_booleanas (r : Request) (s : Store) :
  inocua r = true ->
  Forall booleana (tareas s) -> Forall booleana (tareas (fst (handle r s))).
Proof.
  intros Hr Hb. destruct r as [q|id|fecha cuerpo|id cuerpo|id|id|]; simpl.
  - done.
  - unfold get_tarea. by destruct (find _ _).
  - destruct (post_tareas_nueva fecha cuerpo s) as [->|(t & Ht & ->)]; simpl.
    + done.
    + apply Forall_app. split; [done|]. apply Forall_singleton.
      unfold booleana. by rewrite Ht.
  - destruct (caso_id id s) as [E | (i & t & Hpr)].
    + by destruct (rutas_sin_tarea id cuerpo s E) as (_ & -> & _).
    + rewrite (put_tarea_primera _ cuerpo _ _ _ Hpr). simpl.
      destruct Hpr as (Hl & _). apply Forall_insert; [done|].
      pose proof (Forall_lookup_1 _ _ _ _ Hb Hl) as Ht.
      unfold booleana in *. rewrite lookup_insert_ne by done.
      rewrite lookup_union. simpl in Hr.
      destruct (cuerpo !! "completada") as [v|]; simpl.
      * by destruct (t !! "completada").
      * by destruct (t !! "completada").
  - destruct (caso_id id s) as [E | (i & t & Hpr)].
    + by destruct (rutas_sin_tarea id ∅ s E) as (_ & _ & -> & _).
    + rewrite (patch_toggle_primera _ _ _ _ Hpr). simpl.
      apply Forall_insert; [done|].
      unfold booleana, alternar. by rewrite lookup_insert_eq.
  - destruct (caso_id id s) as [E | (i & t & Hpr)].
    + by destruct (rutas_sin_tarea id ∅ s E) as (_ & _ & _ & ->).
    + rewrite (delete_tarea_primera _ _ _ _ Hpr). simpl.
      by apply Forall_delete.
  - unfold get_estadisticas. by destruct (forEach _ _ _).
Qed.

(** X12: the only way to store a [completada] that is not a boolean is a
    PUT whose body carries one: from a store where every [completada] is
    a boolean, every sequence of requests without such a PUT leads to a
    store where every [completada] is a boolean. *)
Theorem run_booleanas (rs : list Request) (s : Store) :
  Forall (fun r => inocua r = true) rs ->
  Forall booleana (tareas s) ->
  Forall booleana (tareas (fst (run rs s))).
Proof.
  intros Hrs. revert s. induction Hrs as [|r rs Hr Hrs IH]; intros s Hb.
  - done.
  - rewrite run_cons. cbn [fst]. by apply IH, handle_booleanas.
Qed.

Lemma run_booleanas_witness :
  let rs := [PostTareas "2024-01-02T00:00:00.000Z" cuerpo_leche;
             PutTarea (NInt 3) (<["completada" := JBool true]>
                                  (<["titulo" := JNum (NInt 7)]> ∅));
             PatchToggle (NInt 1);
             DeleteTarea (NInt 2)] in
  Forall booleana
    (tareas (fst (run rs (inicio (semilla_ejemplo "2024-01-01T00:00:00.000Z"))))).
Proof.
  intros rs. apply run_booleanas.
  - repeat constructor.
  - repeat constructor.
Defined.

(** *** Consecutive ids *)

(** X13: ids are handed out consecutively: after any sequence of
    requests, from any store, the ids carried by the 201 answers are, in
    order, the consecutive integers that start at the initial value of the
    counter; a rejected creation, or any other request in between,
    consumes no id. *)
Theorem run_ids_consecutivos (rs : list Request) (s : Store) :
  let resps := snd (run rs s) in
  ids_creadas resps =
  seqZ (contadorId s) (Z.of_nat (cuantas es_201 resps)).
Proof.
  revert s. induction rs as [|r rs IH]; intros s; cbv zeta; [done|].
  rewrite run_cons. cbn [snd].
  destruct (handle_contador r s) as [Hc Hcr].
  unfold ids_creadas, cuantas in *. cbn [omap list_omap List.filter].
  rewrite Hcr. specialize (IH (fst (handle r s))). cbv zeta in IH.
  destruct (es_201 (snd (handle r s))); cbn [length].
  - rewrite IH, Hc.
    rewrite (seqZ_cons (contadorId s)) by lia.
    do 2 f_equal; lia.
  - rewrite IH, Hc. do 2 f_equal. lia.
Qed.
